(** * csv-processor: the column summaries of [csv-processor.py]

    A shallow embedding of the script: Python [str] values, the pandas
    operations the three [process_*_summary] functions chain
    ([astype(str)], [.str.strip()], [replace], [dropna], [value_counts],
    [sort_values]), and the orchestration of [process_csv_file] and [main]
    over an explicit console and file system.  pandas is modelled with the
    semantics of its 2.x releases. *)

From Stdlib Require Import List Bool Arith ZArith NArith Lia.
From Stdlib Require Import String Ascii DecimalString.
From Stdlib Require Import Permutation Sorted.
Import ListNotations.

Set Implicit Arguments.

(** ** Python strings *)

Module PyStr.

(** A Python [str] is a sequence of Unicode code points. *)
Definition pystr := list N.

(** A literal of the script (ASCII text) as a [pystr]. *)
Definition py (s : string) : pystr :=
  List.map N_of_ascii (list_ascii_of_string s).

Fixpoint str_eqb (a b : pystr) : bool :=
  match a, b with
  | [], [] => true
  | x :: a', y :: b' => (x =? y)%N && str_eqb a' b'
  | _, _ => false
  end.

(** [a <= b] on [str]: lexicographic on code points, which is what
    [sort_values] uses on an object column. *)
Fixpoint str_le (a b : pystr) : bool :=
  match a, b with
  | [], _ => true
  | _ :: _, [] => false
  | x :: a', y :: b' =>
      if (x <? y)%N then true
      else if (x =? y)%N then str_le a' b'
      else false
  end.

(** [Py_UNICODE_ISSPACE]: the code points that [str.strip()] removes and
    that [\s] matches in a [str] pattern. *)
Definition isspace (c : N) : bool :=
  ((9 <=? c) && (c <=? 13) || (28 <=? c) && (c <=? 32)
   || (c =? 133) || (c =? 160) || (c =? 5760)
   || (8192 <=? c) && (c <=? 8202)
   || (c =? 8232) || (c =? 8233) || (c =? 8239) || (c =? 8287)
   || (c =? 12288))%N.

(** [s.lstrip()] *)
Fixpoint lstrip (s : pystr) : pystr :=
  match s with
  | c :: s' => if isspace c then lstrip s' else s
  | [] => []
  end.

(** [s.rstrip()] *)
Definition rstrip (s : pystr) : pystr := rev (lstrip (rev s)).

(** [s.strip()] *)
Definition strip (s : pystr) : pystr := rstrip (lstrip s).

(** [str(n)] for a Python [int]. *)
Definition str_of_Z (z : Z) : pystr := py (NilZero.string_of_int (Z.to_int z)).

Definition str_of_nat (n : nat) : pystr := str_of_Z (Z.of_nat n).

End PyStr.
Import PyStr.

(** ** The pandas operations the script uses *)

Module Pandas.

(** A value of a column as [pd.read_csv] hands it over: a Python [str], the
    float [nan] that stands for a missing cell, a numpy integer, a
    boolean, or another float.  A float other than [nan] is given by its
    text form [str(x)]: how Python prints a float is not modelled. *)
Inductive cell : Type :=
  | Str (s : pystr)
  | NaN
  | Int (z : Z)
  | Bool (b : bool)
  | Float (text : pystr).

(** The values of a [pd.Series], in order. *)
Definition series := list cell.

(** A [pd.Series]: its values and the name it carries.  A column taken
    from the frame is named after the header of the file;
    [pd.Series(dtype=str)] has no name.  The name goes unchanged through
    [astype], [.str.strip], [replace] and [dropna]. *)
Record Series : Type := mk_Series
  { name : option pystr;
    values : series }.

(** An element of an object Series once [replace] may have put [pd.NA]
    into it: [None] is [pd.NA]. *)
Definition obj := option pystr.

(** [Series.astype(str)], element by element: [str(x)]. *)
Definition astype_str (c : cell) : pystr :=
  match c with
  | Str s => s
  | NaN => py "nan"
  | Int z => str_of_Z z
  | Bool true => py "True"
  | Bool false => py "False"
  | Float text => text
  end.

(** [column.astype(str).str.strip()] *)
Definition astype_str_strip (column : series) : list obj :=
  List.map (fun c => Some (strip (astype_str c))) column.

(** [Series.replace(to_replace, value)] with a list of strings for
    [to_replace] and a scalar [value] ([Some] label, or [None] for
    [pd.NA]): an element equal to one of the strings becomes [value]. *)
Definition replace_list (to_replace : list pystr) (value : obj) (x : obj) : obj :=
  match x with
  | Some s => if existsb (str_eqb s) to_replace then value else x
  | None => x
  end.

(** Whether the pattern [^\s*$] matches [s]: [\s*] takes the leading
    whitespace, and [$] then needs the end of the string (the position
    before a final newline is no other case, a newline being whitespace). *)
Definition blank_re_search (s : pystr) : bool :=
  match lstrip s with
  | [] => true
  | _ :: _ => false
  end.

(** [Series.replace(r'^\s*$', value, regex=True)]: a [str] element the
    pattern matches becomes [value] (with a [str] value pandas calls
    [rx.sub(value, s)], which rewrites the one match, the whole string);
    an element that is not a [str] is left alone. *)
Definition replace_blank_regex (value : obj) (x : obj) : obj :=
  match x with
  | Some s => if blank_re_search s then value else x
  | None => x
  end.

Definition notna (x : obj) : bool :=
  match x with
  | Some _ => true
  | None => false
  end.

(** [Series.dropna()] *)
Definition dropna (xs : list obj) : list obj := filter notna xs.

(** The [str] elements of a Series, in order. *)
Fixpoint strs (xs : list obj) : list pystr :=
  match xs with
  | [] => []
  | Some s :: xs' => s :: strs xs'
  | None :: xs' => strs xs'
  end.

(** The hash table [value_counts] fills: one more occurrence of [l]. *)
Fixpoint count_add (l : pystr) (t : list (pystr * nat)) : list (pystr * nat) :=
  match t with
  | [] => [(l, 1)]
  | (k, c) :: t' => if str_eqb k l then (k, S c) :: t' else (k, c) :: count_add l t'
  end.

(** Labels in order of first occurrence, each with its number of
    occurrences. *)
Definition tally (xs : list pystr) : list (pystr * nat) :=
  fold_left (fun t x => count_add x t) xs [].

Section Sorting.
Variable A : Type.
Variable le : A -> A -> bool.

Fixpoint insert_sorted (x : A) (l : list A) : list A :=
  match l with
  | [] => [x]
  | y :: l' => if le x y then x :: l else y :: insert_sorted x l'
  end.

(** A stable sort by [le]. *)
Definition sort_by (l : list A) : list A :=
  fold_right insert_sorted [] l.
End Sorting.

(** [Series.value_counts()]: missing values are not counted
    ([dropna=True]), the result is ordered by decreasing count. *)
Definition value_counts (xs : list obj) : list (pystr * nat) :=
  sort_by (fun a b => snd b <=? snd a) (tally (strs (dropna xs))).

(** A two-column frame: the column names and the rows. *)
Record frame : Type := mk_frame
  { columns : pystr * pystr;
    rows : list (pystr * nat) }.

(** [value_counts().reset_index()] followed by the assignment of the two
    column names. *)
Definition reset_index_named (names : pystr * pystr) (counts : list (pystr * nat)) : frame :=
  mk_frame names counts.

(** [counts.reset_index()] on the result of [value_counts()] (pandas
    2.x): the counts are a column named ["count"] and the labels become a
    column named after the Series, ["index"] when it has no name.  For a
    Series that is itself named ["count"] the second column cannot be
    inserted and [ValueError] is raised; [inl] holds its message. *)
Definition reset_index (name : option pystr) (counts : list (pystr * nat)) : pystr + frame :=
  match name with
  | Some n =>
      if str_eqb n (py "count")
      then inl (py "cannot insert count, already exists")
      else inr (mk_frame (n, py "count") counts)
  | None => inr (mk_frame (py "index", py "count") counts)
  end.

(** [frame.columns = [a, b]] *)
Definition set_columns (names : pystr * pystr) (f : frame) : frame :=
  mk_frame names (rows f).

(** [frame.sort_values(label column).reset_index(drop=True)]: rows in
    ascending order of the label.  Labels are pairwise distinct here, so
    the sorting algorithm does not show in the result. *)
Definition sort_values (f : frame) : frame :=
  mk_frame (columns f) (sort_by (fun a b => str_le (fst a) (fst b)) (rows f)).

End Pandas.
Import Pandas.

(** ** The three summaries (the frames handed to [to_csv]) *)

Definition null_strings : list pystr :=
  [py ""; py "nan"; py "NaN"; py "null"; py "NULL"].

Definition Unknown : pystr := py "Unknown".

(** [process_os_summary], lines 106-110 *)
Definition os_cleaned (os_column : series) : list obj :=
  let os_cleaned := astype_str_strip os_column in
  let os_cleaned := List.map (replace_list null_strings (Some Unknown)) os_cleaned in
  List.map (replace_blank_regex (Some Unknown)) os_cleaned.

(** [process_os_summary], lines 113-117 *)
Definition os_counts (os_column : series) : frame :=
  let os_counts :=
    reset_index_named (py "Operating System", py "Count")
      (value_counts (os_cleaned os_column)) in
  sort_values os_counts.

(** [process_hostname_summary], lines 146-153 *)
Definition hostname_cleaned (hostname_column : series) : list obj :=
  let hostname_cleaned := astype_str_strip hostname_column in
  let hostname_cleaned := List.map (replace_list null_strings None) hostname_cleaned in
  let hostname_cleaned := List.map (replace_blank_regex None) hostname_cleaned in
  dropna hostname_cleaned.

(** [process_hostname_summary], lines 156-160 *)
Definition hostname_counts (hostname_column : series) : frame :=
  let hostname_counts :=
    reset_index_named (py "Hostname", py "Count")
      (value_counts (hostname_cleaned hostname_column)) in
  sort_values hostname_counts.

(** [process_vulnerability_summary], lines 188-195 *)
Definition vuln_cleaned (vuln_column : series) : list obj :=
  let vuln_cleaned := astype_str_strip vuln_column in
  let vuln_cleaned := List.map (replace_list null_strings None) vuln_cleaned in
  let vuln_cleaned := List.map (replace_blank_regex None) vuln_cleaned in
  dropna vuln_cleaned.

(** [process_vulnerability_summary], lines 198-202 *)
Definition vuln_counts (vuln_column : series) : frame :=
  let vuln_counts :=
    reset_index_named (py "Vulnerability", py "Count")
      (value_counts (vuln_cleaned vuln_column)) in
  sort_values vuln_counts.


(** ** [os.path] (POSIX flavour) *)

Module OsPath.

Definition is_sep (c : N) : bool := (c =? 47)%N.

Definition is_empty (s : pystr) : bool :=
  match s with
  | [] => true
  | _ :: _ => false
  end.

(** The reversed text from its first ['/'] on. *)
Fixpoint from_sep (r : pystr) : pystr :=
  match r with
  | c :: r' => if is_sep c then r else from_sep r'
  | [] => []
  end.

Fixpoint lstrip_sep (r : pystr) : pystr :=
  match r with
  | c :: r' => if is_sep c then lstrip_sep r' else r
  | [] => []
  end.

(** [os.path.dirname(p)]: [head = p[:p.rfind('/') + 1]], without its
    trailing slashes unless it is made of slashes only. *)
Definition dirname (p : pystr) : pystr :=
  let head := rev (from_sep (rev p)) in
  if negb (is_empty head) && negb (forallb is_sep head)
  then rev (lstrip_sep (rev head))
  else head.

Definition startswith_sep (s : pystr) : bool :=
  match s with
  | c :: _ => is_sep c
  | [] => false
  end.

(** [os.path.join(a, b)] *)
Definition join (a b : pystr) : pystr :=
  if startswith_sep b then b
  else if is_empty a || startswith_sep (rev a) then a ++ b
  else a ++ 47%N :: b.

End OsPath.

(** ** The world the script runs in *)

(** A cell of the input file: its text as the tokenizer of
    [pd.read_csv] sees it and, when type inference converted it, the
    value it was converted to.  How pandas decides to convert is not
    modelled (it goes by column and, with the default [low_memory=True],
    by chunk of rows, so that one column may mix converted and
    unconverted cells): a cell comes with the outcome. *)
Record file_cell : Type := mk_cell
  { cell_text : pystr;
    converted : option cell }.

(** A column of the input file: the name pandas gives it (the header)
    and its cells. *)
Record file_column : Type := mk_column
  { header : pystr;
    cells : list file_cell }.

(** A cell kept as text. *)
Definition text_cell (text : pystr) : file_cell := mk_cell text None.

(** What the script cannot decide by itself. *)
Record env : Type := mk_env
  { path_exists : pystr -> bool;
      (** [os.path.exists] *)
    mkdir_error : pystr -> option pystr;
      (** [Some e]: [Path(d).mkdir(parents=True, exist_ok=True)] raises *)
    now : pystr;
      (** [datetime.now().strftime("%Y%m%d_%H%M%S")] *)
    file_table : pystr -> pystr + list file_column;
      (** the columns of a delimited file, or [inl e] when it cannot be
          read or parsed ([pd.read_csv] raises, [str(e) = e]) *)
    to_csv_error : pystr -> option pystr
      (** [Some e]: writing to this path raises, [str(e) = e] *) }.

(** What the script changes: the lines printed, the directories it has
    made sure exist, and the report files on disk, each with its path
    and the frame it holds (a file is represented by the frame given to
    [to_csv]; paths are compared as they are written). *)
Record world : Type := mk_world
  { console : list pystr;
    dirs : list pystr;
    files : list (pystr * frame) }.

Module Run.

(** How a piece of the script ends: normally, with an exception that
    [except Exception] can catch, or with [sys.exit]. *)
Inductive outcome (A : Type) : Type :=
  | Done (a : A)
  | Raise (e : pystr)
  | Exit (code : Z).
Arguments Done {A} a.
Arguments Raise {A} e.
Arguments Exit {A} code.

Definition M (A : Type) : Type := world -> outcome A * world.

Definition ret {A} (a : A) : M A := fun w => (Done a, w).

Definition bind {A B} (c : M A) (k : A -> M B) : M B :=
  fun w =>
    match c w with
    | (Done a, w') => k a w'
    | (Raise e, w') => (Raise e, w')
    | (Exit n, w') => (Exit n, w')
    end.

Definition raise {A} (e : pystr) : M A := fun w => (Raise e, w).

Definition sys_exit {A} (code : Z) : M A := fun w => (Exit code, w).

(** [try: body  except Exception as e: handler(str(e))] *)
Definition try_except {A} (body : M A) (handler : pystr -> M A) : M A :=
  fun w =>
    match body w with
    | (Raise e, w') => handler e w'
    | r => r
    end.

(** [print(line)] *)
Definition print (line : pystr) : M unit :=
  fun w => (Done tt, mk_world (console w ++ [line]) (dirs w) (files w)).

End Run.
Import Run.

Declare Scope run_scope.
Delimit Scope run_scope with run.
Notation "x <- c ;; k" := (bind c (fun x => k))
  (at level 61, c at next level, right associativity) : run_scope.
Notation "c ;; k" := (bind c (fun _ => k))
  (at level 61, right associativity) : run_scope.
Open Scope run_scope.

(** [pd.read_csv] with its default arguments reads these cell texts as a
    missing value ([na_filter=True], [keep_default_na=True]). *)
Definition default_na_values : list pystr :=
  [py ""; py "#N/A"; py "#N/A N/A"; py "#NA"; py "-1.#IND"; py "-1.#QNAN";
   py "-NaN"; py "-nan"; py "1.#IND"; py "1.#QNAN"; py "<NA>"; py "N/A";
   py "NA"; py "NULL"; py "NaN"; py "None"; py "n/a"; py "nan"; py "null"].

Definition is_na_value (text : pystr) : bool :=
  existsb (str_eqb text) default_na_values.

(** The value [pd.read_csv] gives for a cell: [nan] for a marker of a
    missing value, the converted value when type inference converted the
    cell, the text itself otherwise. *)
Definition read_cell (c : file_cell) : cell :=
  if is_na_value (cell_text c) then NaN
  else match converted c with
       | Some v => v
       | None => Str (cell_text c)
       end.

(** A column of the frame: [df.iloc[:, i]] is a Series named after the
    header. *)
Definition column_values (c : file_column) : Series :=
  mk_Series (Some (header c)) (List.map read_cell (cells c)).

(** [df = pd.read_csv(input_file_path)]: the frame as its list of columns. *)
Definition pd_read_csv (E : env) (input_file_path : pystr) : M (list Series) :=
  match file_table E input_file_path with
  | inl e => raise e
  | inr table => ret (List.map column_values table)
  end.

(** The ancestors of a path, outermost first, as the successive
    [os.path.dirname] of it ([a], [a/b] for [a/b/c]). *)
Fixpoint parents_upto (n : nat) (p : pystr) : list pystr :=
  match n with
  | O => []
  | S n' =>
      let q := OsPath.dirname p in
      if OsPath.is_empty q || str_eqb q p then [] else parents_upto n' q ++ [q]
  end.

Definition parents (p : pystr) : list pystr := parents_upto (List.length p) p.

(** The directories that exist once [mkdir(parents=True, exist_ok=True)]
    has returned: the directory and each of its ancestors. *)
Definition made_dirs (d : pystr) : list pystr := parents d ++ [d].

(** [Path(output_directory).mkdir(parents=True, exist_ok=True)] *)
Definition path_mkdir (E : env) (d : pystr) : M unit :=
  fun w =>
    match mkdir_error E d with
    | Some e => (Raise e, w)
    | None => (Done tt, mk_world (console w) (dirs w ++ made_dirs d) (files w))
    end.

(** The disk after a file was written: the file that was at the path, if
    any, is replaced. *)
Definition write_file (path : pystr) (f : frame) (fs : list (pystr * frame))
    : list (pystr * frame) :=
  filter (fun e => negb (str_eqb (fst e) path)) fs ++ [(path, f)].

(** [frame.to_csv(output_path, index=False)] (mode ['w']) *)
Definition to_csv (E : env) (f : frame) (output_path : pystr) : M unit :=
  fun w =>
    match to_csv_error E output_path with
    | Some e => (Raise e, w)
    | None =>
        (Done tt, mk_world (console w) (dirs w) (write_file output_path f (files w)))
    end.

(** The result of a pandas call that may raise. *)
Definition from_result {A} (r : pystr + A) : M A :=
  match r with
  | inl e => raise e
  | inr a => ret a
  end.

(** Python truth value of [path or None]. *)
Definition truthy (p : option pystr) : bool :=
  match p with
  | Some (_ :: _) => true
  | _ => false
  end.

(** [f"{p}"] for [p] a path or [None]. *)
Definition format_path (p : option pystr) : pystr :=
  match p with
  | Some s => s
  | None => py "None"
  end.

(** ** The script's functions *)

Definition process_os_summary (E : env) (os_column : Series)
    (output_dir timestamp : pystr) : M (option pystr) :=
  let os_cleaned := os_cleaned (values os_column) in
  os_counts <- from_result (reset_index (name os_column) (value_counts os_cleaned)) ;;
  let os_counts := set_columns (py "Operating System", py "Count") os_counts in
  let os_counts := sort_values os_counts in
  let filename := py "os_summary_" ++ timestamp ++ py ".csv" in
  let output_path := OsPath.join output_dir filename in
  try_except
    (to_csv E os_counts output_path ;;
     print (py "  - Saved OS summary to: " ++ output_path) ;;
     print (py "  - Found " ++ str_of_nat (List.length (rows os_counts))
              ++ py " unique operating systems") ;;
     ret (Some output_path))
    (fun e =>
       print (py "  - Error saving OS summary: " ++ e) ;;
       ret None).

Definition process_hostname_summary (E : env) (hostname_column : Series)
    (output_dir timestamp : pystr) : M (option pystr) :=
  let hostname_cleaned := hostname_cleaned (values hostname_column) in
  hostname_counts <- from_result (reset_index (name hostname_column) (value_counts hostname_cleaned)) ;;
  let hostname_counts := set_columns (py "Hostname", py "Count") hostname_counts in
  let hostname_counts := sort_values hostname_counts in
  let filename := py "hostname_summary_" ++ timestamp ++ py ".csv" in
  let output_path := OsPath.join output_dir filename in
  try_except
    (to_csv E hostname_counts output_path ;;
     print (py "  - Saved hostname summary to: " ++ output_path) ;;
     print (py "  - Found " ++ str_of_nat (List.length (rows hostname_counts))
              ++ py " unique hostnames") ;;
     ret (Some output_path))
    (fun e =>
       print (py "  - Error saving hostname summary: " ++ e) ;;
       ret None).

Definition process_vulnerability_summary (E : env) (vuln_column : Series)
    (output_dir timestamp : pystr) : M (option pystr) :=
  let vuln_cleaned := vuln_cleaned (values vuln_column) in
  vuln_counts <- from_result (reset_index (name vuln_column) (value_counts vuln_cleaned)) ;;
  let vuln_counts := set_columns (py "Vulnerability", py "Count") vuln_counts in
  let vuln_counts := sort_values vuln_counts in
  let filename := py "vuln_" ++ timestamp ++ py ".csv" in
  let output_path := OsPath.join output_dir filename in
  try_except
    (to_csv E vuln_counts output_path ;;
     print (py "  - Saved vulnerability summary to: " ++ output_path) ;;
     print (py "  - Found " ++ str_of_nat (List.length (rows vuln_counts))
              ++ py " unique vulnerabilities") ;;
     ret (Some output_path))
    (fun e =>
       print (py "  - Error saving vulnerability summary: " ++ e) ;;
       ret None).

(** [pd.Series(dtype=str)] *)
Definition empty_Series : Series := mk_Series None [].

(** [df.iloc[:, i] if len(df.columns) > i else pd.Series(dtype=str)] *)
Definition column_or_empty (df : list Series) (i : nat) : Series :=
  if i <? List.length df then nth i df empty_Series else empty_Series.

Definition when (b : bool) (c : M unit) : M unit :=
  if b then c else ret tt.

Definition process_csv_file (E : env) (input_file_path : pystr)
    (output_directory : option pystr) : M bool :=
  if negb (path_exists E input_file_path) then
    print (py "Error: Input file '" ++ input_file_path ++ py "' not found.") ;;
    ret false
  else
    let output_directory :=
      match output_directory with
      | None =>
          let d := OsPath.dirname input_file_path in
          if OsPath.is_empty d then py "." else d
      | Some d => d
      end in
    path_mkdir E output_directory ;;
    let timestamp := now E in
    try_except
      (print (py "Reading CSV file: " ++ input_file_path) ;;
       df <- pd_read_csv E input_file_path ;;
       when (List.length df <? 8)
         (print (py "Warning: CSV file has only " ++ str_of_nat (List.length df)
                   ++ py " columns. Expected at least 8 columns.") ;;
          print (py "Proceeding with available columns...")) ;;
       let hostnames := column_or_empty df 2 in
       let operating_systems := column_or_empty df 4 in
       let vulnerabilities := column_or_empty df 7 in
       print (py "Processing Operating Systems summary...") ;;
       os_summary_path <- process_os_summary E operating_systems output_directory timestamp ;;
       print (py "Processing Hostnames summary...") ;;
       hostname_summary_path <- process_hostname_summary E hostnames output_directory timestamp ;;
       print (py "Processing Vulnerabilities summary...") ;;
       vuln_summary_path <- process_vulnerability_summary E vulnerabilities output_directory timestamp ;;
       print (10%N :: py "Summary Reports Generated Successfully!") ;;
       when (truthy os_summary_path)
         (print (py "- OS Summary: " ++ format_path os_summary_path)) ;;
       when (truthy hostname_summary_path)
         (print (py "- Hostname Summary: " ++ format_path hostname_summary_path)) ;;
       when (truthy vuln_summary_path)
         (print (py "- Vulnerability Summary: " ++ format_path vuln_summary_path)) ;;
       ret true)
      (fun e =>
         print (py "Error processing CSV file: " ++ e) ;;
         ret false).

Definition DEFAULT_INPUT_FILE : pystr := py "input_data.csv".

(** [main()], with [sys.argv] as [argv] (the script's name first). *)
Definition main (E : env) (argv : list pystr) : M unit :=
  input_file <-
    match argv with
    | _ :: input_file :: _ => ret input_file
    | _ =>
        print (py "No input file specified. Using default: " ++ DEFAULT_INPUT_FILE) ;;
        print (py "Usage: python csv_processor.py <input_csv_file> [output_directory]") ;;
        ret DEFAULT_INPUT_FILE
    end ;;
  let output_dir :=
    match argv with
    | _ :: _ :: output_dir :: _ => Some output_dir
    | _ => None
    end in
  success <- process_csv_file E input_file output_dir ;;
  if success : bool then
    print ([10; 9989]%N ++ py " Script completed successfully!")
  else
    print ([10; 10060]%N ++ py " Script failed to complete.") ;;
    sys_exit 1.

(** The exit status of the interpreter and the world it leaves: 0 when
    [main] returns, 1 after an exception nobody caught, the argument of
    [sys.exit] otherwise. *)
Definition run (E : env) (argv : list pystr) (w : world) : Z * world :=
  match main E argv w with
  | (Done _, w') => (0%Z, w')
  | (Raise _, w') => (1%Z, w')
  | (Exit code, w') => (code, w')
  end.

(** ** Vocabulary of the statements *)

(** Step 1 of the summarizer on one value: its text, trimmed. *)
Definition normalize (c : cell) : pystr := strip (astype_str c).

(** Null-like token, in the words of the data model: one of the five
    listed texts, or whitespace only. *)
Definition null_like (s : pystr) : bool :=
  existsb (str_eqb s) [py ""; py "nan"; py "NaN"; py "null"; py "NULL"]
  || forallb isspace s.

(** The two [replace] calls of a summary (lines 109-110, 149-150,
    191-192) on one trimmed text; [value] is what a null-like text
    becomes. *)
Definition mark_null (value : obj) (s : pystr) : obj :=
  replace_blank_regex value (replace_list null_strings value (Some s)).

(** Sum of the Count column. *)
Definition total (rs : list (pystr * nat)) : nat :=
  fold_right (fun r n => snd r + n) 0 rs.

(** The count recorded for a label, 0 when it has no row. *)
Fixpoint count_for (l : pystr) (rs : list (pystr * nat)) : nat :=
  match rs with
  | [] => 0
  | (k, c) :: rs' => if str_eqb k l then c else count_for l rs'
  end.

Definition pystr_eq_dec : forall a b : pystr, {a = b} + {a <> b} :=
  list_eq_dec N.eq_dec.

(** Number of occurrences of [l] in a list of labels. *)
Definition occurrences (l : pystr) (xs : list pystr) : nat :=
  count_occ pystr_eq_dec xs l.

(** Rows compared by label. *)
Definition label_le (a b : pystr * nat) : Prop := str_le (fst a) (fst b) = true.

(** Every row's label is at most the next row's. *)
Definition ascending (rs : list (pystr * nat)) : Prop :=
  forall i a b,
    nth_error rs i = Some a -> nth_error rs (S i) = Some b ->
    str_le (fst a) (fst b) = true.

(** *** What a run prints and writes *)

(** The input file [main] settles on. *)
Definition input_file_of (argv : list pystr) : pystr :=
  match argv with
  | _ :: input_file :: _ => input_file
  | _ => DEFAULT_INPUT_FILE
  end.

(** The output directory given on the command line, if any. *)
Definition output_argument (argv : list pystr) : option pystr :=
  match argv with
  | _ :: _ :: output_dir :: _ => Some output_dir
  | _ => None
  end.

(** The directory [process_csv_file] writes to. *)
Definition output_directory_for (input_file_path : pystr) (output_directory : option pystr) : pystr :=
  match output_directory with
  | None =>
      let d := OsPath.dirname input_file_path in
      if OsPath.is_empty d then py "." else d
  | Some d => d
  end.

Definition output_directory_of (argv : list pystr) : pystr :=
  output_directory_for (input_file_of argv) (output_argument argv).

(** What [main] prints before it calls [process_csv_file]. *)
Definition usage_notice (argv : list pystr) : list pystr :=
  match argv with
  | _ :: _ :: _ => []
  | _ =>
      [py "No input file specified. Using default: " ++ DEFAULT_INPUT_FILE;
       py "Usage: python csv_processor.py <input_csv_file> [output_directory]"]
  end.

(** The path of a report: [os.path.join(output_dir, prefix + timestamp + ".csv")]. *)
Definition report_path (output_dir : pystr) (prefix : string) (timestamp : pystr) : pystr :=
  OsPath.join output_dir (py prefix ++ timestamp ++ py ".csv").

(** Whether [to_csv] succeeds at a path. *)
Definition writes (E : env) (path : pystr) : bool :=
  match to_csv_error E path with
  | None => true
  | Some _ => false
  end.

(** What one [process_*_summary] call prints: two lines when the frame is
    written, the error otherwise. *)
Definition report_console (E : env) (path : pystr) (f : frame)
    (saved found error : string) : list pystr :=
  match to_csv_error E path with
  | None =>
      [py saved ++ path;
       py "  - Found " ++ str_of_nat (List.length (rows f)) ++ py found]
  | Some e => [py error ++ e]
  end.

(** What one [process_*_summary] call leaves on disk. *)
Definition report_file (E : env) (path : pystr) (f : frame) : list (pystr * frame) :=
  if writes E path then [(path, f)] else [].

(** The line of the closing list for one report. *)
Definition success_line (E : env) (title : string) (path : pystr) : list pystr :=
  if writes E path then [py title ++ path] else [].

(** The three frames of a run, from the loaded columns. *)
Definition os_frame (df : list Series) : frame :=
  os_counts (values (column_or_empty df 4)).
Definition hostname_frame (df : list Series) : frame :=
  hostname_counts (values (column_or_empty df 2)).
Definition vuln_frame (df : list Series) : frame :=
  vuln_counts (values (column_or_empty df 7)).

Definition column_warning (df : list Series) : list pystr :=
  if List.length df <? 8 then
    [py "Warning: CSV file has only " ++ str_of_nat (List.length df)
       ++ py " columns. Expected at least 8 columns.";
     py "Proceeding with available columns..."]
  else [].

(** Everything [process_csv_file] prints once the file is loaded and
    the three summaries go through, in order; [d] is the output
    directory. *)
Definition loaded_console (E : env) (input_file_path d : pystr) (df : list Series) : list pystr :=
  [py "Reading CSV file: " ++ input_file_path]
  ++ column_warning df
  ++ [py "Processing Operating Systems summary..."]
  ++ report_console E (report_path d "os_summary_" (now E)) (os_frame df)
       "  - Saved OS summary to: " " unique operating systems"
       "  - Error saving OS summary: "
  ++ [py "Processing Hostnames summary..."]
  ++ report_console E (report_path d "hostname_summary_" (now E)) (hostname_frame df)
       "  - Saved hostname summary to: " " unique hostnames"
       "  - Error saving hostname summary: "
  ++ [py "Processing Vulnerabilities summary..."]
  ++ report_console E (report_path d "vuln_" (now E)) (vuln_frame df)
       "  - Saved vulnerability summary to: " " unique vulnerabilities"
       "  - Error saving vulnerability summary: "
  ++ [10%N :: py "Summary Reports Generated Successfully!"]
  ++ success_line E "- OS Summary: " (report_path d "os_summary_" (now E))
  ++ success_line E "- Hostname Summary: " (report_path d "hostname_summary_" (now E))
  ++ success_line E "- Vulnerability Summary: " (report_path d "vuln_" (now E)).

(** The files of a run, in the order they are written. *)
Definition loaded_files (E : env) (d : pystr) (df : list Series) : list (pystr * frame) :=
  report_file E (report_path d "os_summary_" (now E)) (os_frame df)
  ++ report_file E (report_path d "hostname_summary_" (now E)) (hostname_frame df)
  ++ report_file E (report_path d "vuln_" (now E)) (vuln_frame df).

(** *** A Series that [reset_index] refuses *)

(** The message of the [ValueError]. *)
Definition clash_message : pystr := py "cannot insert count, already exists".

(** The Series is named ["count"]. *)
Definition named_count (s : Series) : bool :=
  match name s with
  | Some n => str_eqb n (py "count")
  | None => false
  end.

(** *** The disk *)

(** The frame held by the file at a path, if there is one. *)
Definition read_file (path : pystr) (fs : list (pystr * frame)) : option frame :=
  option_map snd (find (fun e => str_eqb (fst e) path) fs).

(** The disk after several files were written, one after the other. *)
Definition write_files (new fs : list (pystr * frame)) : list (pystr * frame) :=
  fold_left (fun fs e => write_file (fst e) (snd e) fs) new fs.

(** *** A run over a loaded file, step by step *)

(** The world after one [process_*_summary] call that got past
    [reset_index]. *)
Definition after_report (E : env) (path : pystr) (f : frame)
    (saved found error : string) (w : world) : world :=
  mk_world (console w ++ report_console E path f saved found error)
    (dirs w)
    (if writes E path then write_file path f (files w) else files w).

Definition announce (line : string) (w : world) : world :=
  mk_world (console w ++ [py line]) (dirs w) (files w).

(** How [process_csv_file] ends when a summary raises the [ValueError]:
    the handler of line 87 prints it and [False] is returned. *)
Definition aborted (w : world) : outcome bool * world :=
  (Done false,
   mk_world (console w ++ [py "Error processing CSV file: " ++ clash_message])
     (dirs w) (files w)).

(** [process_csv_file] from the point where the file is loaded: the
    three summaries in the order of the source, each stopping the run
    when its column is named ["count"]. *)
Definition loaded_run (E : env) (input_file_path d : pystr) (df : list Series)
    (w : world) : outcome bool * world :=
  let w0 :=
    mk_world
      (console w ++ [py "Reading CSV file: " ++ input_file_path]
         ++ column_warning df ++ [py "Processing Operating Systems summary..."])
      (dirs w ++ made_dirs d) (files w) in
  if named_count (column_or_empty df 4) then aborted w0 else
  let w1 :=
    announce "Processing Hostnames summary..."
      (after_report E (report_path d "os_summary_" (now E)) (os_frame df)
         "  - Saved OS summary to: " " unique operating systems"
         "  - Error saving OS summary: " w0) in
  if named_count (column_or_empty df 2) then aborted w1 else
  let w2 :=
    announce "Processing Vulnerabilities summary..."
      (after_report E (report_path d "hostname_summary_" (now E)) (hostname_frame df)
         "  - Saved hostname summary to: " " unique hostnames"
         "  - Error saving hostname summary: " w1) in
  if named_count (column_or_empty df 7) then aborted w2 else
  let w3 :=
    after_report E (report_path d "vuln_" (now E)) (vuln_frame df)
      "  - Saved vulnerability summary to: " " unique vulnerabilities"
      "  - Error saving vulnerability summary: " w2 in
  (Done true,
   mk_world
     (console w3
        ++ [10%N :: py "Summary Reports Generated Successfully!"]
        ++ success_line E "- OS Summary: " (report_path d "os_summary_" (now E))
        ++ success_line E "- Hostname Summary: " (report_path d "hostname_summary_" (now E))
        ++ success_line E "- Vulnerability Summary: " (report_path d "vuln_" (now E)))
     (dirs w3) (files w3)).

(** None of the three columns a run summarizes is named ["count"]. *)
Definition no_count_header (df : list Series) : bool :=
  negb (named_count (column_or_empty df 4))
  && negb (named_count (column_or_empty df 2))
  && negb (named_count (column_or_empty df 7)).

(** *** Sample runs *)

Definition empty_world : world := mk_world [] [] [].

(** A run whose input file is missing. *)
Definition missing_input_env : env :=
  mk_env (fun _ => false) (fun _ => None) (py "20250101_120000")
    (fun _ => inl (py "No such file or directory"))
    (fun _ => None).

Definition id_column : file_column :=
  mk_column (py "id")
    [mk_cell (py "1") (Some (Int 1)); mk_cell (py "2") (Some (Int 2));
     mk_cell (py "3") (Some (Int 3))].

(** A file with five columns: hostnames at index 2, operating systems at
    index 4, no vulnerability column. *)
Definition five_columns : list file_column :=
  [id_column;
   mk_column (py "ip") (List.map text_cell [py "10.0.0.1"; py "10.0.0.2"; py "10.0.0.3"]);
   mk_column (py "hostname") (List.map text_cell [py "web01"; py "web02"; py "web01"]);
   mk_column (py "rack") (List.map text_cell [py "rack A"; py ""; py "rack B"]);
   mk_column (py "os") (List.map text_cell [py "Linux"; py " Linux"; py "NA"])].

(** A run over [five_columns] in which the operating-system report cannot
    be written. *)
Definition os_write_fails_env : env :=
  mk_env (fun _ => true) (fun _ => None) (py "20250101_120000")
    (fun _ => inr five_columns)
    (fun p => if str_eqb p (py "out/os_summary_20250101_120000.csv")
              then Some (py "[Errno 13] Permission denied")
              else None).

Definition sample_argv : list pystr :=
  [py "csv-processor.py"; py "servers.csv"; py "out"].

(** The same five columns with the operating systems under the header
    ["count"]. *)
Definition os_headed_count : list file_column :=
  [id_column;
   mk_column (py "ip") (List.map text_cell [py "10.0.0.1"; py "10.0.0.2"; py "10.0.0.3"]);
   mk_column (py "hostname") (List.map text_cell [py "web01"; py "web02"; py "web01"]);
   mk_column (py "rack") (List.map text_cell [py "rack A"; py ""; py "rack B"]);
   mk_column (py "count") (List.map text_cell [py "Linux"; py " Linux"; py "NA"])].

(** A run over [os_headed_count] in which every path is writable. *)
Definition os_headed_count_env : env :=
  mk_env (fun _ => true) (fun _ => None) (py "20250101_120000")
    (fun _ => inr os_headed_count)
    (fun _ => None).



(** ** Vocabulary of the further properties *)

(** [s] holds no ['/']. *)
Definition no_sep (s : pystr) : bool :=
  forallb (fun c => negb (OsPath.is_sep c)) s.

(** [d.rstrip('/')] *)
Definition rstrip_sep (d : pystr) : pystr := rev (OsPath.lstrip_sep (rev d)).

(** The three report paths of a run. *)
Definition os_path (E : env) (d : pystr) : pystr := report_path d "os_summary_" (now E).
Definition hostname_path (E : env) (d : pystr) : pystr := report_path d "hostname_summary_" (now E).
Definition vuln_path (E : env) (d : pystr) : pystr := report_path d "vuln_" (now E).

(** A run whose input exists but cannot be parsed. *)
Definition load_error_env : env :=
  mk_env (fun _ => true) (fun _ => None) (py "20250101_120000")
    (fun _ => inl (py "No columns to parse from file"))
    (fun _ => None).

(** A run whose output directory cannot be made. *)
Definition mkdir_fails_env : env :=
  mk_env (fun _ => true) (fun _ => Some (py "[Errno 13] Permission denied: 'out'"))
    (py "20250101_120000")
    (fun _ => inr five_columns)
    (fun _ => None).

(** None of the columns a run summarizes (indices 2, 4 and 7, where the
    table has them) is headed ["count"]. *)
Definition no_column_headed_count (table : list file_column) : Prop :=
  forall i, In i [2; 4; 7] -> i < List.length table ->
            header (nth i table (mk_column [] [])) <> py "count".

(** The reports a run over a loaded file gets to, with their paths, in
    order: a summary that raises ends the list. *)
Definition attempted_files (E : env) (d : pystr) (df : list Series) : list (pystr * frame) :=
  if named_count (column_or_empty df 4) then [] else
  report_file E (report_path d "os_summary_" (now E)) (os_frame df)
  ++ (if named_count (column_or_empty df 2) then [] else
      report_file E (report_path d "hostname_summary_" (now E)) (hostname_frame df)
      ++ (if named_count (column_or_empty df 7) then [] else
          report_file E (report_path d "vuln_" (now E)) (vuln_frame df))).

(** The line of the handler at line 88 for the [ValueError]. *)
Definition error_line : pystr := py "Error processing CSV file: " ++ clash_message.

(** What a run over a loaded file prints from the first summary on. *)
Definition summary_lines (E : env) (d : pystr) (df : list Series) : list pystr :=
  py "Processing Operating Systems summary..." ::
  (if named_count (column_or_empty df 4) then [error_line] else
   report_console E (report_path d "os_summary_" (now E)) (os_frame df)
     "  - Saved OS summary to: " " unique operating systems"
     "  - Error saving OS summary: "
   ++ py "Processing Hostnames summary..." ::
   (if named_count (column_or_empty df 2) then [error_line] else
    report_console E (report_path d "hostname_summary_" (now E)) (hostname_frame df)
      "  - Saved hostname summary to: " " unique hostnames"
      "  - Error saving hostname summary: "
    ++ py "Processing Vulnerabilities summary..." ::
    (if named_count (column_or_empty df 7) then [error_line] else
     report_console E (report_path d "vuln_" (now E)) (vuln_frame df)
       "  - Saved vulnerability summary to: " " unique vulnerabilities"
       "  - Error saving vulnerability summary: "
     ++ [10%N :: py "Summary Reports Generated Successfully!"]
     ++ success_line E "- OS Summary: " (report_path d "os_summary_" (now E))
     ++ success_line E "- Hostname Summary: " (report_path d "hostname_summary_" (now E))
     ++ success_line E "- Vulnerability Summary: " (report_path d "vuln_" (now E))))).

(** A line that is neither of the two lines of the column-count warning. *)
Definition not_a_warning (line : pystr) : Prop :=
  line <> py "Proceeding with available columns..."
  /\ forall n : nat,
       line <> py "Warning: CSV file has only " ++ str_of_nat n
                 ++ py " columns. Expected at least 8 columns.".

(** * Properties *)

(** ** The model on small inputs *)

Example strip_ex : strip (py "  linux 	") = py "linux".
Proof. reflexivity. Qed.

Example strip_inner_space_ex : strip (py " Windows Server 2019 ") = py "Windows Server 2019".
Proof. reflexivity. Qed.

Example str_of_Z_ex :
  str_of_Z (-42) = py "-42" /\ str_of_Z 0 = py "0" /\ str_of_nat 12 = py "12".
Proof. repeat split; reflexivity. Qed.

Example str_le_ex :
  str_le (py "Windows") (py "linux") = true /\ str_le (py "linux") (py "Windows") = false.
Proof. split; reflexivity. Qed.

Example dirname_ex :
  OsPath.dirname (py "data/in/servers.csv") = py "data/in"
  /\ OsPath.dirname (py "servers.csv") = py ""
  /\ OsPath.dirname (py "/servers.csv") = py "/"
  /\ OsPath.dirname (py "data//servers.csv") = py "data".
Proof. repeat split; reflexivity. Qed.

Example join_ex :
  OsPath.join (py "out") (py "vuln_x.csv") = py "out/vuln_x.csv"
  /\ OsPath.join (py "out/") (py "vuln_x.csv") = py "out/vuln_x.csv"
  /\ OsPath.join (py "") (py "vuln_x.csv") = py "vuln_x.csv".
Proof. repeat split; reflexivity. Qed.

Example os_counts_ex :
  rows (os_counts [Str (py "Linux"); Str (py " linux "); Str (py ""); Str (py "Windows");
                   NaN; Int 7; Str (py "Unknown")]) =
  [(py "7", 1); (py "Linux", 1); (py "Unknown", 3); (py "Windows", 1); (py "linux", 1)].
Proof. reflexivity. Qed.

Example vuln_counts_ex :
  vuln_counts [Str (py "CVE-2021-1"); Str (py "CVE-2021-1"); Str (py "CVE-2020-9")] =
  mk_frame (py "Vulnerability", py "Count") [(py "CVE-2020-9", 1); (py "CVE-2021-1", 2)].
Proof. reflexivity. Qed.

Example value_counts_ex :
  value_counts [Some (py "b"); Some (py "a"); None; Some (py "a"); Some (py "c")] =
  [(py "a", 2); (py "b", 1); (py "c", 1)].
Proof. reflexivity. Qed.

Example run_sample_ex :
  run os_write_fails_env sample_argv empty_world =
  (0%Z,
   mk_world
     [py "Reading CSV file: servers.csv";
      py "Warning: CSV file has only 5 columns. Expected at least 8 columns.";
      py "Proceeding with available columns...";
      py "Processing Operating Systems summary...";
      py "  - Error saving OS summary: [Errno 13] Permission denied";
      py "Processing Hostnames summary...";
      py "  - Saved hostname summary to: out/hostname_summary_20250101_120000.csv";
      py "  - Found 2 unique hostnames";
      py "Processing Vulnerabilities summary...";
      py "  - Saved vulnerability summary to: out/vuln_20250101_120000.csv";
      py "  - Found 0 unique vulnerabilities";
      10%N :: py "Summary Reports Generated Successfully!";
      py "- Hostname Summary: out/hostname_summary_20250101_120000.csv";
      py "- Vulnerability Summary: out/vuln_20250101_120000.csv";
      [10; 9989]%N ++ py " Script completed successfully!"]
     [py "out"]
     [(py "out/hostname_summary_20250101_120000.csv",
       mk_frame (py "Hostname", py "Count") [(py "web01", 2); (py "web02", 1)]);
      (py "out/vuln_20250101_120000.csv",
       mk_frame (py "Vulnerability", py "Count") [])]).
Proof. reflexivity. Qed.

(** ** Strings *)

Lemma str_eqb_eq (a b : pystr) : str_eqb a b = true <-> a = b.
Proof.
  revert b; induction a as [|x a IH]; intros [|y b]; simpl; split;
    try discriminate; try reflexivity.
  - intros H. apply andb_true_iff in H as [Hx Hr].
    apply N.eqb_eq in Hx. apply IH in Hr. now subst.
  - intros H. injection H as -> ->. rewrite N.eqb_refl. now apply IH.
Qed.

Lemma str_eqb_refl (a : pystr) : str_eqb a a = true.
Proof. now apply str_eqb_eq. Qed.

Lemma str_eqb_neq (a b : pystr) : str_eqb a b = false <-> a <> b.
Proof.
  split.
  - intros H E. apply str_eqb_eq in E. congruence.
  - intros H. destruct (str_eqb a b) eqn:E; [|reflexivity].
    apply str_eqb_eq in E. contradiction.
Qed.

Lemma str_eqb_sym (a b : pystr) : str_eqb a b = str_eqb b a.
Proof.
  destruct (str_eqb a b) eqn:E.
  - apply str_eqb_eq in E. subst. symmetry. apply str_eqb_refl.
  - symmetry. apply str_eqb_neq. apply str_eqb_neq in E. congruence.
Qed.

Lemma str_le_total (a b : pystr) : str_le a b = false -> str_le b a = true.
Proof.
  revert b; induction a as [|x a IH]; intros [|y b]; simpl; try discriminate; auto.
  destruct (x <? y)%N eqn:Hxy; [discriminate|].
  destruct (x =? y)%N eqn:Exy.
  - apply N.eqb_eq in Exy; subst. rewrite Hxy, N.eqb_refl. apply IH.
  - intros _. apply N.ltb_ge in Hxy. apply N.eqb_neq in Exy.
    assert (Hlt : (y < x)%N) by lia.
    apply N.ltb_lt in Hlt. now rewrite Hlt.
Qed.

Lemma str_le_refl (a : pystr) : str_le a a = true.
Proof.
  induction a as [|x a IH]; simpl; [reflexivity|].
  rewrite N.ltb_irrefl, N.eqb_refl. exact IH.
Qed.

Lemma str_le_antisym (a b : pystr) :
  str_le a b = true -> str_le b a = true -> a = b.
Proof.
  revert b; induction a as [|x a IH]; intros [|y b]; simpl; try discriminate; auto.
  destruct (x <? y)%N eqn:Hxy.
  - apply N.ltb_lt in Hxy. intros _.
    destruct (y <? x)%N eqn:Hyx; [apply N.ltb_lt in Hyx; lia|].
    destruct (y =? x)%N eqn:Eyx; [apply N.eqb_eq in Eyx; lia|discriminate].
  - destruct (x =? y)%N eqn:Exy; [|discriminate].
    apply N.eqb_eq in Exy; subst. rewrite Hxy, N.eqb_refl.
    intros H1 H2. f_equal. now apply IH.
Qed.

Lemma str_le_trans (a b c : pystr) :
  str_le a b = true -> str_le b c = true -> str_le a c = true.
Proof.
  revert b c; induction a as [|x a IH]; intros [|y b] [|z c]; simpl;
    try discriminate; auto.
  destruct (x <? y)%N eqn:Hxy, (y <? z)%N eqn:Hyz;
    try apply N.ltb_lt in Hxy; try apply N.ltb_lt in Hyz;
    try apply N.ltb_ge in Hxy; try apply N.ltb_ge in Hyz.
  - intros _ _. assert (H : (x < z)%N) by lia. apply N.ltb_lt in H. now rewrite H.
  - destruct (y =? z)%N eqn:Eyz; [|discriminate].
    apply N.eqb_eq in Eyz; subst. intros _ _.
    apply N.ltb_lt in Hxy. now rewrite Hxy.
  - destruct (x =? y)%N eqn:Exy; [|discriminate].
    apply N.eqb_eq in Exy; subst. intros _ _.
    apply N.ltb_lt in Hyz. now rewrite Hyz.
  - destruct (x =? y)%N eqn:Exy; [|discriminate].
    destruct (y =? z)%N eqn:Eyz; [|discriminate].
    apply N.eqb_eq in Exy; apply N.eqb_eq in Eyz; subst.
    rewrite N.ltb_irrefl, N.eqb_refl. apply IH.
Qed.

(** ** Whitespace and trimming *)

Lemma lstrip_nil_iff (s : pystr) : lstrip s = [] <-> forallb isspace s = true.
Proof.
  induction s as [|c s IH]; simpl; [tauto|].
  destruct (isspace c); simpl; [exact IH|].
  split; discriminate.
Qed.

Lemma blank_re_search_spec (s : pystr) : blank_re_search s = forallb isspace s.
Proof.
  unfold blank_re_search.
  destruct (lstrip s) eqn:E.
  - symmetry. now apply lstrip_nil_iff.
  - destruct (forallb isspace s) eqn:F; [|reflexivity].
    apply lstrip_nil_iff in F. congruence.
Qed.

Lemma lstrip_head (s : pystr) c r : lstrip s = c :: r -> isspace c = false.
Proof.
  induction s as [|x s IH]; simpl; [discriminate|].
  destruct (isspace x) eqn:E; [exact IH|].
  intros H; injection H as -> _. exact E.
Qed.

Lemma lstrip_idem (s : pystr) : lstrip (lstrip s) = lstrip s.
Proof.
  destruct (lstrip s) eqn:E; [reflexivity|].
  apply lstrip_head in E. simpl. now rewrite E.
Qed.

(** A trimmed text is whitespace only exactly when it is empty. *)
Lemma strip_blank_iff (s : pystr) :
  forallb isspace (strip s) = true <-> strip s = [].
Proof.
  split; [|intros ->; reflexivity].
  unfold strip, rstrip. intros H.
  destruct (lstrip (rev (lstrip s))) as [|c r] eqn:E; [reflexivity|].
  exfalso. pose proof (lstrip_head _ E) as Hc.
  rewrite forallb_forall in H.
  specialize (H c). rewrite H in Hc; [discriminate|].
  apply in_rev. rewrite rev_involutive. now left.
Qed.

(** ** Sorting *)

Section SortFacts.
Variable A : Type.
Variable le : A -> A -> bool.

Lemma insert_sorted_perm (x : A) (l : list A) :
  Permutation (insert_sorted le x l) (x :: l).
Proof.
  induction l as [|y l IH]; simpl; [reflexivity|].
  destruct (le x y); [reflexivity|].
  rewrite IH. apply perm_swap.
Qed.

Lemma sort_by_perm (l : list A) : Permutation (sort_by le l) l.
Proof.
  induction l as [|x l IH]; simpl; [reflexivity|].
  rewrite insert_sorted_perm. now constructor.
Qed.

Hypothesis le_total : forall a b, le a b = false -> le b a = true.

Local Abbreviation R := (fun a b : A => le a b = true).

Lemma insert_sorted_Sorted (x : A) (l : list A) :
  Sorted R l -> Sorted R (insert_sorted le x l).
Proof.
  induction l as [|y l IH]; simpl; intros H.
  - repeat constructor.
  - destruct (le x y) eqn:E.
    + constructor; [exact H|]. constructor. exact E.
    + inversion H as [|? ? Hs Hh]; subst.
      constructor; [now apply IH|].
      destruct l as [|z l]; simpl.
      * constructor. now apply le_total.
      * destruct (le x z); constructor.
        -- now apply le_total.
        -- now inversion Hh.
  Qed.

Lemma sort_by_Sorted (l : list A) : Sorted R (sort_by le l).
Proof.
  induction l as [|x l IH]; simpl; [constructor|].
  now apply insert_sorted_Sorted.
Qed.

End SortFacts.

Lemma Sorted_adjacent (A : Type) (R : A -> A -> Prop) (l : list A) :
  Sorted R l ->
  forall i a b, nth_error l i = Some a -> nth_error l (S i) = Some b -> R a b.
Proof.
  induction 1 as [|x l Hs IH Hh]; intros i a b Ha Hb.
  - destruct i; discriminate.
  - destruct i as [|i]; simpl in *.
    + injection Ha as <-. destruct l as [|y l]; [discriminate|].
      simpl in Hb. injection Hb as <-. now inversion Hh.
    + eapply IH; eassumption.
Qed.

Lemma sort_by_label_ascending (rs : list (pystr * nat)) :
  ascending (sort_by (fun a b => str_le (fst a) (fst b)) rs).
Proof.
  unfold ascending. intros i a b Ha Hb.
  apply (@Sorted_adjacent _ (fun x y : pystr * nat => str_le (fst x) (fst y) = true)
           _ (sort_by_Sorted _ (fun x y => str_le_total (fst x) (fst y)) rs) i a b Ha Hb).
Qed.

(** ** Counting *)

Lemma total_perm (rs rs' : list (pystr * nat)) :
  Permutation rs rs' -> total rs = total rs'.
Proof.
  induction 1; simpl; lia.
Qed.

Lemma count_add_keys (l : pystr) (t : list (pystr * nat)) (k : pystr) :
  In k (List.map fst (count_add l t)) <-> k = l \/ In k (List.map fst t).
Proof.
  induction t as [|[k' c] t IH]; simpl.
  - intuition congruence.
  - destruct (str_eqb k' l) eqn:E; simpl.
    + apply str_eqb_eq in E. subst. intuition congruence.
    + rewrite IH. intuition congruence.
Qed.

Lemma count_add_NoDup (l : pystr) (t : list (pystr * nat)) :
  NoDup (List.map fst t) -> NoDup (List.map fst (count_add l t)).
Proof.
  induction t as [|[k c] t IH]; simpl; intros H.
  - repeat constructor. intros [].
  - inversion H as [|? ? Hn Hd]; subst.
    destruct (str_eqb k l) eqn:E; simpl.
    + now constructor.
    + constructor; [|now apply IH].
      rewrite count_add_keys. intros [->|Hin]; [|contradiction].
      now rewrite str_eqb_refl in E.
Qed.

Lemma count_add_total (l : pystr) (t : list (pystr * nat)) :
  total (count_add l t) = S (total t).
Proof.
  induction t as [|[k c] t IH]; simpl; [reflexivity|].
  destruct (str_eqb k l); simpl; [reflexivity|].
  rewrite IH. lia.
Qed.

Lemma count_add_for (l : pystr) (t : list (pystr * nat)) (k : pystr) :
  count_for k (count_add l t) =
  count_for k t + (if pystr_eq_dec l k then 1 else 0).
Proof.
  induction t as [|[k' c] t IH]; simpl.
  - destruct (pystr_eq_dec l k) as [->|Hn].
    + now rewrite str_eqb_refl.
    + apply str_eqb_neq in Hn. now rewrite Hn.
  - destruct (str_eqb k' l) eqn:E; simpl.
    + apply str_eqb_eq in E; subst k'.
      destruct (str_eqb l k) eqn:E'.
      * apply str_eqb_eq in E'; subst.
        destruct (pystr_eq_dec k k); [lia|contradiction].
      * apply str_eqb_neq in E'.
        destruct (pystr_eq_dec l k); [contradiction|].
        destruct t; simpl; lia.
    + destruct (str_eqb k' k) eqn:E'; [|exact IH].
      apply str_eqb_eq in E'; subst k'. apply str_eqb_neq in E.
      destruct (pystr_eq_dec l k); [congruence|lia].
Qed.

Lemma count_add_pos (l : pystr) (t : list (pystr * nat)) :
  Forall (fun r => 1 <= snd r) t -> Forall (fun r => 1 <= snd r) (count_add l t).
Proof.
  induction t as [|[k c] t IH]; simpl; intros H.
  - repeat constructor.
  - inversion H; subst. destruct (str_eqb k l).
    + constructor; [simpl; lia|assumption].
    + constructor; [assumption|now apply IH].
Qed.

Section Tally.
Local Abbreviation step := (fun (t : list (pystr * nat)) (x : pystr) => count_add x t).

Lemma fold_tally_NoDup (xs : list pystr) : forall acc,
  NoDup (List.map fst acc) -> NoDup (List.map fst (fold_left step xs acc)).
Proof.
  induction xs as [|x xs IH]; simpl; intros acc H; [exact H|].
  apply IH. now apply count_add_NoDup.
Qed.

Lemma fold_tally_total (xs : list pystr) : forall acc,
  total (fold_left step xs acc) = total acc + List.length xs.
Proof.
  induction xs as [|x xs IH]; simpl; intros acc; [lia|].
  rewrite IH. rewrite count_add_total. lia.
Qed.

Lemma fold_tally_for (xs : list pystr) (k : pystr) : forall acc,
  count_for k (fold_left step xs acc) = count_for k acc + occurrences k xs.
Proof.
  unfold occurrences.
  induction xs as [|x xs IH]; simpl; intros acc; [lia|].
  rewrite IH. rewrite count_add_for.
  destruct (pystr_eq_dec x k); lia.
Qed.

Lemma fold_tally_pos (xs : list pystr) : forall acc,
  Forall (fun r => 1 <= snd r) acc ->
  Forall (fun r => 1 <= snd r) (fold_left step xs acc).
Proof.
  induction xs as [|x xs IH]; simpl; intros acc H; [exact H|].
  apply IH. now apply count_add_pos.
Qed.
End Tally.

Lemma tally_NoDup (xs : list pystr) : NoDup (List.map fst (tally xs)).
Proof. apply fold_tally_NoDup. constructor. Qed.

Lemma tally_total (xs : list pystr) : total (tally xs) = List.length xs.
Proof. unfold tally. now rewrite fold_tally_total. Qed.

Lemma tally_for (xs : list pystr) (k : pystr) :
  count_for k (tally xs) = occurrences k xs.
Proof. unfold tally. now rewrite fold_tally_for. Qed.

Lemma tally_pos (xs : list pystr) : Forall (fun r => 1 <= snd r) (tally xs).
Proof. apply fold_tally_pos. constructor. Qed.

(** With distinct labels, a row carries the count recorded for its label. *)
Lemma count_for_In (rs : list (pystr * nat)) (k : pystr) (c : nat) :
  NoDup (List.map fst rs) -> In (k, c) rs -> count_for k rs = c.
Proof.
  induction rs as [|[k' c'] rs IH]; simpl; intros Hd Hin; [contradiction|].
  inversion Hd as [|? ? Hn Hd']; subst.
  destruct Hin as [E|Hin].
  - injection E as -> ->. now rewrite str_eqb_refl.
  - destruct (str_eqb k' k) eqn:E.
    + apply str_eqb_eq in E; subst. exfalso. apply Hn.
      change k with (fst (k, c)). now apply in_map.
    + now apply IH.
Qed.

Lemma count_for_row (rs : list (pystr * nat)) (k : pystr) :
  count_for k rs <> 0 -> In (k, count_for k rs) rs.
Proof.
  induction rs as [|[k' c'] rs IH]; simpl; intros H; [contradiction|].
  destruct (str_eqb k' k) eqn:E.
  - apply str_eqb_eq in E; subst. now left.
  - right. now apply IH.
Qed.

Lemma count_for_absent (rs : list (pystr * nat)) (k : pystr) :
  Forall (fun r => 1 <= snd r) rs ->
  count_for k rs = 0 -> ~ In k (List.map fst rs).
Proof.
  induction rs as [|[k' c'] rs IH]; simpl; intros Hp H; [tauto|].
  inversion Hp; subst. simpl in *.
  destruct (str_eqb k' k) eqn:E; [lia|].
  apply str_eqb_neq in E. intros [?|?]; [contradiction|].
  now apply IH.
Qed.

(** ** The cleaning steps *)

Lemma null_like_blank (s : pystr) :
  null_like s = existsb (str_eqb s) null_strings || blank_re_search s.
Proof. unfold null_like. now rewrite blank_re_search_spec. Qed.

Lemma mark_null_drop (s : pystr) :
  mark_null None s = if null_like s then None else Some s.
Proof.
  rewrite null_like_blank. unfold mark_null, replace_list.
  destruct (existsb (str_eqb s) null_strings); simpl; [reflexivity|].
  now destruct (blank_re_search s).
Qed.

Lemma mark_null_unknown (s : pystr) :
  mark_null (Some Unknown) s = Some (if null_like s then Unknown else s).
Proof.
  rewrite null_like_blank. unfold mark_null, replace_list.
  destruct (existsb (str_eqb s) null_strings); simpl; [reflexivity|].
  now destruct (blank_re_search s).
Qed.

Lemma os_cleaned_mark (col : series) :
  os_cleaned col = List.map (fun c => mark_null (Some Unknown) (normalize c)) col.
Proof.
  unfold os_cleaned, astype_str_strip. rewrite !map_map. reflexivity.
Qed.

Lemma hostname_cleaned_mark (col : series) :
  hostname_cleaned col = dropna (List.map (fun c => mark_null None (normalize c)) col).
Proof.
  unfold hostname_cleaned, astype_str_strip. rewrite !map_map. reflexivity.
Qed.

Lemma vuln_cleaned_mark (col : series) :
  vuln_cleaned col = dropna (List.map (fun c => mark_null None (normalize c)) col).
Proof.
  unfold vuln_cleaned, astype_str_strip. rewrite !map_map. reflexivity.
Qed.

Lemma os_cleaned_spec (col : series) :
  os_cleaned col =
  List.map (fun c => Some (if null_like (normalize c) then Unknown else normalize c)) col.
Proof.
  rewrite os_cleaned_mark. apply map_ext. intros c. apply mark_null_unknown.
Qed.

Lemma dropna_mark_spec (col : series) :
  dropna (List.map (fun c => mark_null None (normalize c)) col) =
  List.map Some (filter (fun s => negb (null_like s)) (List.map normalize col)).
Proof.
  unfold dropna.
  induction col as [|c col IH]; simpl; [reflexivity|].
  rewrite mark_null_drop.
  destruct (null_like (normalize c)); simpl; [exact IH|].
  now rewrite IH.
Qed.

Lemma strs_map_Some (xs : list pystr) : strs (List.map Some xs) = xs.
Proof. induction xs; simpl; congruence. Qed.

Lemma strs_dropna (xs : list obj) : strs (dropna xs) = strs xs.
Proof.
  unfold dropna. induction xs as [|[s|] xs IH]; simpl; congruence.
Qed.

Lemma filter_map_length (A B : Type) (f : A -> B) (p : B -> bool) (l : list A) :
  List.length (filter p (List.map f l)) = List.length (filter (fun a => p (f a)) l).
Proof.
  induction l as [|a l IH]; simpl; [reflexivity|].
  destruct (p (f a)); simpl; congruence.
Qed.

(** ** The rows of a summary *)

(** The rows are the tally of the labels, reordered. *)
Lemma summary_rows_perm (names : pystr * pystr) (xs : list obj) :
  Permutation (rows (sort_values (reset_index_named names (value_counts xs))))
              (tally (strs xs)).
Proof.
  unfold sort_values, reset_index_named, value_counts. simpl.
  rewrite !sort_by_perm. now rewrite strs_dropna.
Qed.

Lemma summary_rows_total (names : pystr * pystr) (xs : list obj) :
  total (rows (sort_values (reset_index_named names (value_counts xs)))) =
  List.length (strs xs).
Proof.
  rewrite (total_perm (summary_rows_perm names xs)). apply tally_total.
Qed.

Lemma summary_rows_NoDup (names : pystr * pystr) (xs : list obj) :
  NoDup (List.map fst (rows (sort_values (reset_index_named names (value_counts xs))))).
Proof.
  eapply Permutation_NoDup; [|apply (tally_NoDup (strs xs))].
  apply Permutation_map. symmetry. apply summary_rows_perm.
Qed.

Lemma summary_rows_pos (names : pystr * pystr) (xs : list obj) :
  Forall (fun r => 1 <= snd r)
    (rows (sort_values (reset_index_named names (value_counts xs)))).
Proof.
  eapply Permutation_Forall; [|apply (tally_pos (strs xs))].
  symmetry. apply summary_rows_perm.
Qed.

(** A row is a label that occurs, with its number of occurrences. *)
Lemma summary_rows_exact (names : pystr * pystr) (xs : list obj) (l : pystr) (c : nat) :
  In (l, c) (rows (sort_values (reset_index_named names (value_counts xs))))
  <-> c = occurrences l (strs xs) /\ 1 <= c.
Proof.
  pose proof (summary_rows_perm names xs) as P.
  split.
  - intros Hin. pose proof (Permutation_in _ P Hin) as Ht.
    split.
    + rewrite <- tally_for. symmetry. apply count_for_In; [apply tally_NoDup|exact Ht].
    + pose proof (tally_pos (strs xs)) as Hp. rewrite Forall_forall in Hp.
      apply (Hp _ Ht).
  - intros [-> Hc]. apply (Permutation_in _ (Permutation_sym P)).
    rewrite <- tally_for in *. apply count_for_row. lia.
Qed.

Lemma summary_rows_ascending (names : pystr * pystr) (xs : list obj) :
  ascending (rows (sort_values (reset_index_named names (value_counts xs)))).
Proof. apply sort_by_label_ascending. Qed.

Lemma length_strs_os_cleaned (col : series) :
  List.length (strs (os_cleaned col)) = List.length col.
Proof.
  rewrite os_cleaned_spec.
  induction col as [|c col IH]; simpl; congruence.
Qed.

Lemma length_strs_dropna_mark (col : series) :
  List.length (strs (dropna (List.map (fun c => mark_null None (normalize c)) col))) =
  List.length (filter (fun c => negb (null_like (normalize c))) col).
Proof.
  rewrite dropna_mark_spec, strs_map_Some. apply filter_map_length.
Qed.

(** ** The sorted table does not depend on how it was sorted *)

Lemma same_label_same_row (rs : list (pystr * nat)) (a b : pystr * nat) :
  NoDup (List.map fst rs) -> In a rs -> In b rs -> fst a = fst b -> a = b.
Proof.
  induction rs as [|r rs IH]; simpl; intros Hd Ha Hb E; [contradiction|].
  inversion Hd as [|? ? Hn Hd']; subst.
  destruct Ha as [->|Ha], Hb as [->|Hb]; auto.
  - exfalso. apply Hn. rewrite E. now apply in_map.
  - exfalso. apply Hn. rewrite <- E. now apply in_map.
Qed.

Lemma ascending_Sorted (rs : list (pystr * nat)) :
  ascending rs -> Sorted label_le rs.
Proof.
  induction rs as [|r rs IH]; intros H; constructor.
  - apply IH. intros i a b Ha Hb. exact (H (S i) a b Ha Hb).
  - destruct rs as [|r' rs]; constructor.
    exact (H 0 r r' eq_refl eq_refl).
Qed.

Lemma label_le_trans : Relations_1.Transitive label_le.
Proof.
  intros a b c. unfold label_le. apply str_le_trans.
Qed.

Lemma sorted_rows_unique (l1 : list (pystr * nat)) : forall l2,
  Permutation l1 l2 -> NoDup (List.map fst l1) ->
  StronglySorted label_le l1 -> StronglySorted label_le l2 -> l1 = l2.
Proof.
  induction l1 as [|x1 t1 IH]; intros [|x2 t2] P Hd S1 S2.
  - reflexivity.
  - apply Permutation_nil in P. discriminate.
  - symmetry in P. apply Permutation_nil in P. discriminate.
  - assert (E : x1 = x2).
    { inversion S1 as [|? ? _ F1]; inversion S2 as [|? ? _ F2]; subst.
      rewrite Forall_forall in F1, F2.
      assert (I1 : In x1 (x2 :: t2)) by (apply (Permutation_in _ P); now left).
      assert (I2 : In x2 (x1 :: t1))
        by (apply (Permutation_in _ (Permutation_sym P)); now left).
      destruct I1 as [->|I1]; [reflexivity|].
      destruct I2 as [->|I2]; [reflexivity|].
      apply (same_label_same_row (x1 :: t1)); auto.
      - now left.
      - now right.
      - apply str_le_antisym; [apply (F1 _ I2)|apply (F2 _ I1)]. }
    subst x2. f_equal.
    inversion Hd; inversion S1; inversion S2; subst.
    apply IH; auto. now apply Permutation_cons_inv in P.
Qed.

(** Whatever order [value_counts] leaves equal counts in, and whichever
    algorithm [sort_values] runs, the table is the same: the only
    arrangement of the tally that is ascending by label. *)
Lemma summary_rows_determined (names : pystr * pystr) (xs : list obj)
    (rs : list (pystr * nat)) :
  Permutation rs (tally (strs xs)) -> ascending rs ->
  rs = rows (sort_values (reset_index_named names (value_counts xs))).
Proof.
  intros P A.
  pose proof (summary_rows_perm names xs) as P'.
  apply sorted_rows_unique.
  - rewrite P. now symmetry.
  - eapply Permutation_NoDup; [|apply (tally_NoDup (strs xs))].
    apply Permutation_map. now symmetry.
  - apply Sorted_StronglySorted; [apply label_le_trans|now apply ascending_Sorted].
  - apply Sorted_StronglySorted; [apply label_le_trans|].
    apply ascending_Sorted, summary_rows_ascending.
Qed.

(** ** Claims about the column summaries *)

(** C1. For every input column the counts of the summary add up to the
    number of input values (operating systems, where null-like values are
    replaced) or to the number of input values that are not null-like
    after normalization (hostnames and vulnerabilities, where they are
    dropped); and a row is exactly a label that occurs among the cleaned
    values, with its number of occurrences, labels compared as they are
    (["Linux"] and ["linux"] get a row each). *)
Theorem counts_sum_and_are_exact :
  forall col : series,
    total (rows (os_counts col)) = List.length col
    /\ total (rows (hostname_counts col)) =
       List.length (filter (fun c => negb (null_like (normalize c))) col)
    /\ total (rows (vuln_counts col)) =
       List.length (filter (fun c => negb (null_like (normalize c))) col)
    /\ (forall l c, In (l, c) (rows (os_counts col))
          <-> c = occurrences l (strs (os_cleaned col)) /\ 1 <= c)
    /\ (forall l c, In (l, c) (rows (hostname_counts col))
          <-> c = occurrences l (strs (hostname_cleaned col)) /\ 1 <= c)
    /\ (forall l c, In (l, c) (rows (vuln_counts col))
          <-> c = occurrences l (strs (vuln_cleaned col)) /\ 1 <= c)
    /\ rows (os_counts [Str (py "Linux"); Str (py "linux"); Str (py "Linux")]) =
       [(py "Linux", 2); (py "linux", 1)].
Proof.
  intros col. unfold os_counts, hostname_counts, vuln_counts.
  split; [|split; [|split; [|split; [|split; [|split]]]]].
  - rewrite summary_rows_total. apply length_strs_os_cleaned.
  - rewrite summary_rows_total, hostname_cleaned_mark. apply length_strs_dropna_mark.
  - rewrite summary_rows_total, vuln_cleaned_mark. apply length_strs_dropna_mark.
  - intros l c. apply summary_rows_exact.
  - intros l c. apply summary_rows_exact.
  - intros l c. apply summary_rows_exact.
  - reflexivity.
Qed.

(** C2. Before counting, the operating-system summary turns every
    null-like normalized value into the label ["Unknown"], the hostname
    and vulnerability summaries leave every null-like normalized value
    out, and the other values go on unchanged.  Hostnames
    [["web01", "", "web01", "  "]] give the single row [("web01", 2)]. *)
Theorem null_policy_applied_before_counting :
  (forall col : series,
     os_cleaned col =
     List.map (fun c => Some (if null_like (normalize c) then py "Unknown"
                              else normalize c)) col)
  /\ (forall col : series,
        hostname_cleaned col =
        List.map Some (filter (fun s => negb (null_like s)) (List.map normalize col)))
  /\ (forall col : series,
        vuln_cleaned col =
        List.map Some (filter (fun s => negb (null_like s)) (List.map normalize col)))
  /\ hostname_counts [Str (py "web01"); Str (py ""); Str (py "web01"); Str (py "  ")] =
     mk_frame (py "Hostname", py "Count") [(py "web01", 2)].
Proof.
  split; [|split; [|split]].
  - apply os_cleaned_spec.
  - intros col. rewrite hostname_cleaned_mark. apply dropna_mark_spec.
  - intros col. rewrite vuln_cleaned_mark. apply dropna_mark_spec.
  - reflexivity.
Qed.

(** C3. The two [replace] calls treat a trimmed text as null-like exactly
    when it is one of [""], ["nan"], ["NaN"], ["null"], ["NULL"] or is made
    of whitespace only: such a text becomes [pd.NA] (or ["Unknown"] for
    operating systems), any other text is kept.  The inputs [""], ["   "],
    ["nan"], ["NaN"], ["null"], ["NULL"] are null-like once trimmed,
    ["n/a"] is not, and neither are other spellings such as ["Nan"],
    ["NAN"], ["Null"] or ["None"]. *)
Theorem null_like_classification :
  (forall s : pystr,
     mark_null None s = None
     <-> (s = py "" \/ s = py "nan" \/ s = py "NaN" \/ s = py "null"
          \/ s = py "NULL" \/ Forall (fun c => isspace c = true) s))
  /\ (forall s : pystr,
        mark_null None s = None \/ mark_null None s = Some s)
  /\ (forall s : pystr,
        mark_null None s = None -> mark_null (Some (py "Unknown")) s = Some (py "Unknown"))
  /\ (forall s : pystr,
        mark_null None s = Some s -> mark_null (Some (py "Unknown")) s = Some s)
  /\ (forall col : series,
        os_cleaned col = List.map (fun c => mark_null (Some (py "Unknown")) (normalize c)) col
        /\ hostname_cleaned col = dropna (List.map (fun c => mark_null None (normalize c)) col)
        /\ vuln_cleaned col = dropna (List.map (fun c => mark_null None (normalize c)) col))
  /\ Forall (fun raw => mark_null None (strip raw) = None)
       [py ""; py "   "; py "nan"; py "NaN"; py "null"; py "NULL"]
  /\ mark_null None (strip (py "n/a")) = Some (py "n/a")
  /\ Forall (fun raw => mark_null None (strip raw) = Some raw)
       [py "Nan"; py "NAN"; py "Null"; py "nULL"; py "None"; py "NA"; py "n/a"].
Proof.
  split; [|split; [|split; [|split; [|split; [|split; [|split]]]]]].
  - intros s. rewrite mark_null_drop. unfold null_like.
    destruct (existsb (str_eqb s) _) eqn:E; simpl.
    + split; [intros _|reflexivity].
      apply existsb_exists in E as (k & Hk & Ek). apply str_eqb_eq in Ek. subst k.
      simpl in Hk. intuition.
    + destruct (forallb isspace s) eqn:F.
      * split; [intros _|reflexivity].
        do 5 right. apply Forall_forall. rewrite forallb_forall in F. exact F.
      * split; [discriminate|]. intros H. exfalso.
        assert (Hin : In s [py ""; py "nan"; py "NaN"; py "null"; py "NULL"]
                      \/ Forall (fun c => isspace c = true) s).
        { simpl. intuition. }
        destruct Hin as [Hin|Hall].
        -- assert (existsb (str_eqb s) [py ""; py "nan"; py "NaN"; py "null"; py "NULL"] = true).
           { apply existsb_exists. exists s. split; [exact Hin|apply str_eqb_refl]. }
           congruence.
        -- rewrite Forall_forall in Hall. rewrite <- forallb_forall in Hall. congruence.
  - intros s. rewrite mark_null_drop. destruct (null_like s); auto.
  - intros s. rewrite mark_null_drop, mark_null_unknown.
    destruct (null_like s); [reflexivity|discriminate].
  - intros s. rewrite mark_null_drop, mark_null_unknown.
    destruct (null_like s); [discriminate|reflexivity].
  - intros col. split; [apply os_cleaned_mark|].
    split; [apply hostname_cleaned_mark|apply vuln_cleaned_mark].
  - repeat constructor.
  - reflexivity.
  - repeat constructor.
Qed.

(** C4. For every input the rows of each summary are in ascending order
    of the label under code-point comparison: each row's label is at most
    the next row's.  Operating systems [["Linux", " linux ", "",
    "Windows"]] give the rows Linux, Unknown, Windows, linux, each with
    count 1. *)
Theorem rows_sorted_by_label :
  (forall col : series,
     ascending (rows (os_counts col))
     /\ ascending (rows (hostname_counts col))
     /\ ascending (rows (vuln_counts col)))
  /\ os_counts [Str (py "Linux"); Str (py " linux "); Str (py ""); Str (py "Windows")] =
     mk_frame (py "Operating System", py "Count")
       [(py "Linux", 1); (py "Unknown", 1); (py "Windows", 1); (py "linux", 1)].
Proof.
  split; [|reflexivity].
  intros col. unfold os_counts, hostname_counts, vuln_counts.
  repeat split; apply summary_rows_ascending.
Qed.

Lemma rows_sorted_by_label_witness :
  str_le (py "CVE-2020-9") (py "CVE-2021-1") = true.
Proof.
  destruct rows_sorted_by_label as [H _].
  destruct (H [Str (py "CVE-2021-1"); Str (py "CVE-2021-1"); Str (py "CVE-2020-9")])
    as (_ & _ & Hv).
  exact (Hv 0 (py "CVE-2020-9", 1) (py "CVE-2021-1", 2) eq_refl eq_refl).
Defined.

(** C7. In every summary no two rows share a label and every count is at
    least 1. *)
Theorem labels_unique_counts_positive :
  forall col : series,
    (NoDup (List.map fst (rows (os_counts col)))
     /\ Forall (fun r => 1 <= snd r) (rows (os_counts col)))
    /\ (NoDup (List.map fst (rows (hostname_counts col)))
        /\ Forall (fun r => 1 <= snd r) (rows (hostname_counts col)))
    /\ (NoDup (List.map fst (rows (vuln_counts col)))
        /\ Forall (fun r => 1 <= snd r) (rows (vuln_counts col))).
Proof.
  intros col. unfold os_counts, hostname_counts, vuln_counts.
  repeat split; first [apply summary_rows_NoDup | apply summary_rows_pos].
Qed.

Lemma null_like_not_Unknown (s : pystr) :
  null_like s = true -> str_eqb s (py "Unknown") = false.
Proof.
  intros H. destruct (str_eqb s (py "Unknown")) eqn:E; [|reflexivity].
  apply str_eqb_eq in E. subst s. discriminate H.
Qed.

Lemma occurrences_Unknown (col : series) :
  occurrences (py "Unknown") (strs (os_cleaned col)) =
  List.length (filter (fun c => str_eqb (normalize c) (py "Unknown")) col)
  + List.length (filter (fun c => null_like (normalize c)) col).
Proof.
  rewrite os_cleaned_spec. unfold occurrences.
  induction col as [|c col IH]; [reflexivity|].
  cbn [List.map strs filter count_occ].
  destruct (null_like (normalize c)) eqn:Hn.
  - rewrite (null_like_not_Unknown _ Hn).
    destruct (pystr_eq_dec Unknown (py "Unknown")) as [_|Hne]; [|now elim Hne].
    cbn [List.length]. rewrite IH. lia.
  - destruct (str_eqb (normalize c) (py "Unknown")) eqn:E.
    + apply str_eqb_eq in E.
      destruct (pystr_eq_dec (normalize c) (py "Unknown")); [|contradiction].
      cbn [List.length]. rewrite IH. lia.
    + apply str_eqb_neq in E.
      destruct (pystr_eq_dec (normalize c) (py "Unknown")); [contradiction|].
      exact IH.
Qed.

(** C10. In the operating-system summary the values whose trimmed text is
    ["Unknown"] and the null-like values end up in one row: a row
    labelled ["Unknown"] exists exactly when there is such a value, and
    its count is the number of genuine ["Unknown"] values plus the number
    of null-like values.  (C7 makes it the only row with that label.) *)
Theorem unknown_row_merges_genuine_and_null :
  forall (col : series) (c : nat),
    let genuine :=
      List.length (filter (fun x => str_eqb (normalize x) (py "Unknown")) col) in
    let nulls :=
      List.length (filter (fun x => null_like (normalize x)) col) in
    In (py "Unknown", c) (rows (os_counts col))
    <-> c = genuine + nulls /\ 1 <= c.
Proof.
  intros col c genuine nulls. unfold os_counts.
  rewrite summary_rows_exact, occurrences_Unknown. reflexivity.
Qed.

(** ** Running the script *)

Unset Implicit Arguments.

Lemma report_path_truthy (d : pystr) (prefix : string) (ts : pystr) c r :
  py prefix = c :: r -> OsPath.is_sep c = false ->
  truthy (Some (report_path d prefix ts)) = true.
Proof.
  intros Hp Hc. unfold report_path, OsPath.join. rewrite Hp. simpl. rewrite Hc.
  destruct (OsPath.is_empty d || OsPath.startswith_sep (rev d)).
  - destruct d; reflexivity.
  - destruct d; reflexivity.
Qed.

(** [reset_index] either raises or hands over the counts. *)
Lemma reset_index_cases (s : Series) (counts : list (pystr * nat)) :
  (named_count s = true /\ reset_index (name s) counts = inl clash_message)
  \/ (named_count s = false /\
      exists names, reset_index (name s) counts = inr (mk_frame names counts)).
Proof.
  unfold named_count, reset_index. destruct (name s) as [n|].
  - destruct (str_eqb n (py "count")); [left|right]; eauto.
  - right. eauto.
Qed.

Lemma process_os_summary_raises (E : env) (s : Series) (d ts : pystr) (w : world) :
  named_count s = true ->
  process_os_summary E s d ts w = (Raise clash_message, w).
Proof.
  intros H. unfold process_os_summary.
  destruct (reset_index_cases s (value_counts (os_cleaned (values s))))
    as [[_ R]|[C _]]; [|congruence].
  unfold bind at 1. now rewrite R.
Qed.

Lemma process_hostname_summary_raises (E : env) (s : Series) (d ts : pystr) (w : world) :
  named_count s = true ->
  process_hostname_summary E s d ts w = (Raise clash_message, w).
Proof.
  intros H. unfold process_hostname_summary.
  destruct (reset_index_cases s (value_counts (hostname_cleaned (values s))))
    as [[_ R]|[C _]]; [|congruence].
  unfold bind at 1. now rewrite R.
Qed.

Lemma process_vulnerability_summary_raises (E : env) (s : Series) (d ts : pystr) (w : world) :
  named_count s = true ->
  process_vulnerability_summary E s d ts w = (Raise clash_message, w).
Proof.
  intros H. unfold process_vulnerability_summary.
  destruct (reset_index_cases s (value_counts (vuln_cleaned (values s))))
    as [[_ R]|[C _]]; [|congruence].
  unfold bind at 1. now rewrite R.
Qed.

Lemma process_os_summary_run (E : env) (s : Series) (d ts : pystr) (w : world) :
  named_count s = false ->
  process_os_summary E s d ts w =
  (Done (if writes E (report_path d "os_summary_" ts)
         then Some (report_path d "os_summary_" ts) else None),
   after_report E (report_path d "os_summary_" ts) (os_counts (values s))
     "  - Saved OS summary to: " " unique operating systems"
     "  - Error saving OS summary: " w).
Proof.
  intros H. unfold process_os_summary.
  destruct (reset_index_cases s (value_counts (os_cleaned (values s))))
    as [[C _]|[_ [names R]]]; [congruence|].
  unfold bind at 1. rewrite R. unfold from_result, ret.
  change (sort_values (set_columns (py "Operating System", py "Count")
            (mk_frame names (value_counts (os_cleaned (values s))))))
    with (os_counts (values s)).
  unfold after_report, report_console, writes.
  fold (report_path d "os_summary_" ts).
  unfold try_except, bind, to_csv, print, ret.
  destruct (to_csv_error E (report_path d "os_summary_" ts)); cbn [console dirs files];
    rewrite <- ?app_assoc, ?app_nil_r; reflexivity.
Qed.

Lemma process_hostname_summary_run (E : env) (s : Series) (d ts : pystr) (w : world) :
  named_count s = false ->
  process_hostname_summary E s d ts w =
  (Done (if writes E (report_path d "hostname_summary_" ts)
         then Some (report_path d "hostname_summary_" ts) else None),
   after_report E (report_path d "hostname_summary_" ts) (hostname_counts (values s))
     "  - Saved hostname summary to: " " unique hostnames"
     "  - Error saving hostname summary: " w).
Proof.
  intros H. unfold process_hostname_summary.
  destruct (reset_index_cases s (value_counts (hostname_cleaned (values s))))
    as [[C _]|[_ [names R]]]; [congruence|].
  unfold bind at 1. rewrite R. unfold from_result, ret.
  change (sort_values (set_columns (py "Hostname", py "Count")
            (mk_frame names (value_counts (hostname_cleaned (values s))))))
    with (hostname_counts (values s)).
  unfold after_report, report_console, writes.
  fold (report_path d "hostname_summary_" ts).
  unfold try_except, bind, to_csv, print, ret.
  destruct (to_csv_error E (report_path d "hostname_summary_" ts));
    cbn [console dirs files]; rewrite <- ?app_assoc, ?app_nil_r; reflexivity.
Qed.

Lemma process_vulnerability_summary_run (E : env) (s : Series) (d ts : pystr) (w : world) :
  named_count s = false ->
  process_vulnerability_summary E s d ts w =
  (Done (if writes E (report_path d "vuln_" ts)
         then Some (report_path d "vuln_" ts) else None),
   after_report E (report_path d "vuln_" ts) (vuln_counts (values s))
     "  - Saved vulnerability summary to: " " unique vulnerabilities"
     "  - Error saving vulnerability summary: " w).
Proof.
  intros H. unfold process_vulnerability_summary.
  destruct (reset_index_cases s (value_counts (vuln_cleaned (values s))))
    as [[C _]|[_ [names R]]]; [congruence|].
  unfold bind at 1. rewrite R. unfold from_result, ret.
  change (sort_values (set_columns (py "Vulnerability", py "Count")
            (mk_frame names (value_counts (vuln_cleaned (values s))))))
    with (vuln_counts (values s)).
  unfold after_report, report_console, writes.
  fold (report_path d "vuln_" ts).
  unfold try_except, bind, to_csv, print, ret.
  destruct (to_csv_error E (report_path d "vuln_" ts));
    cbn [console dirs files]; rewrite <- ?app_assoc, ?app_nil_r; reflexivity.
Qed.

Lemma process_csv_file_missing (E : env) (input : pystr) (outdir : option pystr) (w : world) :
  path_exists E input = false ->
  process_csv_file E input outdir w =
  (Done false,
   mk_world (console w ++ [py "Error: Input file '" ++ input ++ py "' not found."])
     (dirs w) (files w)).
Proof.
  intros H. unfold process_csv_file. rewrite H. reflexivity.
Qed.

Lemma column_warning_run (df : list Series) (w0 : world) :
  when (List.length df <? 8)
    (bind (print (py "Warning: CSV file has only " ++ str_of_nat (List.length df)
                    ++ py " columns. Expected at least 8 columns."))
       (fun _ => print (py "Proceeding with available columns..."))) w0 =
  (Done tt, mk_world (console w0 ++ column_warning df) (dirs w0) (files w0)).
Proof.
  destruct w0 as [c0 d0 f0]. unfold when, column_warning, bind, print, ret.
  destruct (List.length df <? 8); cbn [console dirs files];
    rewrite <- ?app_assoc, ?app_nil_r; reflexivity.
Qed.

Lemma bind_done (A B : Type) (c : M A) (k : A -> M B) (w w' : world) (a : A) :
  c w = (Done a, w') -> bind c k w = k a w'.
Proof. intros H. unfold bind. now rewrite H. Qed.

Lemma bind_raise (A B : Type) (c : M A) (k : A -> M B) (w w' : world) (e : pystr) :
  c w = (Raise e, w') -> bind c k w = (Raise e, w').
Proof. intros H. unfold bind. now rewrite H. Qed.

Lemma print_run (line : pystr) (w : world) :
  print line w = (Done tt, mk_world (console w ++ [line]) (dirs w) (files w)).
Proof. reflexivity. Qed.

(** [process_csv_file] over a file that exists and loads, in a directory
    that could be made. *)
Lemma process_csv_file_loaded (E : env) (input : pystr) (outdir : option pystr)
    (w : world) (table : list file_column) :
  path_exists E input = true ->
  mkdir_error E (output_directory_for input outdir) = None ->
  file_table E input = inr table ->
  process_csv_file E input outdir w =
  loaded_run E input (output_directory_for input outdir)
    (List.map column_values table) w.
Proof.
  intros Hex Hmk Htab. unfold process_csv_file. rewrite Hex. cbn [negb].
  fold (output_directory_for input outdir).
  set (d := output_directory_for input outdir) in *.
  set (df := List.map column_values table).
  unfold bind at 1. unfold path_mkdir. rewrite Hmk.
  unfold try_except.
  rewrite (bind_done _ _ _ _ _ _ tt (print_run _ _)).
  unfold pd_read_csv. rewrite Htab. fold df.
  unfold bind at 1. unfold ret at 1.
  rewrite (bind_done _ _ _ _ _ _ tt (column_warning_run df _)).
  rewrite (bind_done _ _ _ _ _ _ tt (print_run _ _)).
  cbn [console dirs files]. unfold loaded_run. fold d.
  rewrite <- !app_assoc. cbn [app].
  set (w0 := mk_world _ _ _).
  destruct (named_count (column_or_empty df 4)) eqn:C4.
  { rewrite (bind_raise _ _ _ _ _ _ _ (process_os_summary_raises E _ d (now E) w0 C4)).
    reflexivity. }
  rewrite (bind_done _ _ _ _ _ _ _ (process_os_summary_run E _ d (now E) w0 C4)).
  rewrite (bind_done _ _ _ _ _ _ tt (print_run _ _)).
  fold (os_frame df).
  change (mk_world (console ?x ++ [py "Processing Hostnames summary..."]) _ _)
    with (announce "Processing Hostnames summary..." x).
  set (w1 := announce "Processing Hostnames summary..." _).
  destruct (named_count (column_or_empty df 2)) eqn:C2.
  { rewrite (bind_raise _ _ _ _ _ _ _ (process_hostname_summary_raises E _ d (now E) w1 C2)).
    reflexivity. }
  rewrite (bind_done _ _ _ _ _ _ _ (process_hostname_summary_run E _ d (now E) w1 C2)).
  rewrite (bind_done _ _ _ _ _ _ tt (print_run _ _)).
  fold (hostname_frame df).
  set (w2 := announce "Processing Vulnerabilities summary..." _).
  destruct (named_count (column_or_empty df 7)) eqn:C7.
  { rewrite (bind_raise _ _ _ _ _ _ _
               (process_vulnerability_summary_raises E _ d (now E) w2 C7)).
    reflexivity. }
  rewrite (bind_done _ _ _ _ _ _ _
             (process_vulnerability_summary_run E _ d (now E) w2 C7)).
  fold (vuln_frame df).
  set (w3 := after_report _ _ _ _ _ _ w2).
  rewrite (bind_done _ _ _ _ _ _ tt (print_run _ _)).
  unfold success_line.
  assert (T1 := report_path_truthy d "os_summary_" (now E) _ _ eq_refl eq_refl).
  assert (T2 := report_path_truthy d "hostname_summary_" (now E) _ _ eq_refl eq_refl).
  assert (T3 := report_path_truthy d "vuln_" (now E) _ _ eq_refl eq_refl).
  destruct (writes E (report_path d "os_summary_" (now E)));
    destruct (writes E (report_path d "hostname_summary_" (now E)));
    destruct (writes E (report_path d "vuln_" (now E)));
    rewrite ?T1, ?T2, ?T3;
    unfold when, bind, print, ret;
    repeat progress (cbn [truthy console dirs files format_path app];
                     rewrite <- ?app_assoc, ?app_nil_r);
    reflexivity.
Qed.

Lemma run_missing (E : env) (argv : list pystr) (w : world) :
  path_exists E (input_file_of argv) = false ->
  run E argv w =
  (1%Z,
   mk_world
     (console w ++ usage_notice argv
        ++ [py "Error: Input file '" ++ input_file_of argv ++ py "' not found.";
            [10; 10060]%N ++ py " Script failed to complete."])
     (dirs w) (files w)).
Proof.
  intros H. unfold run, main.
  destruct argv as [|a0 [|a1 rest]]; cbn [input_file_of usage_notice] in *;
    unfold bind, print, ret, sys_exit; cbn [console dirs files];
    rewrite (process_csv_file_missing _ _ _ _ H); cbn [console dirs files];
    repeat progress (rewrite <- ?app_assoc; cbn [app]); reflexivity.
Qed.

(** [main] around [process_csv_file]. *)
Lemma main_run (E : env) (argv : list pystr) (w : world) :
  main E argv w =
  match process_csv_file E (input_file_of argv) (output_argument argv)
          (mk_world (console w ++ usage_notice argv) (dirs w) (files w)) with
  | (Done true, w') =>
      (Done tt,
       mk_world (console w' ++ [[10; 9989]%N ++ py " Script completed successfully!"])
         (dirs w') (files w'))
  | (Done false, w') =>
      (Exit 1%Z,
       mk_world (console w' ++ [[10; 10060]%N ++ py " Script failed to complete."])
         (dirs w') (files w'))
  | (Raise e, w') => (Raise e, w')
  | (Exit n, w') => (Exit n, w')
  end.
Proof.
  unfold main.
  assert (Ho : match argv with _ :: _ :: o :: _ => Some o | _ => None end
               = output_argument argv) by reflexivity.
  rewrite Ho. set (o := output_argument argv). clearbody o. clear Ho.
  destruct w as [c ds fs].
  destruct argv as [|a0 [|a1 rest]]; cbn [input_file_of usage_notice];
    unfold bind, print, ret, sys_exit; cbn [console dirs files];
    rewrite <- ?app_assoc, ?app_nil_r; cbn [app];
    destruct (process_csv_file _ _ _ _) as [[[|]| |] w']; reflexivity.
Qed.

Lemma write_files_app (a b fs : list (pystr * frame)) :
  write_files (a ++ b) fs = write_files b (write_files a fs).
Proof. apply fold_left_app. Qed.

Lemma write_files_report (E : env) (p : pystr) (f : frame) (fs : list (pystr * frame)) :
  write_files (report_file E p f) fs =
  if writes E p then write_file p f fs else fs.
Proof. unfold report_file. now destruct (writes E p). Qed.

(** When none of the three columns is named ["count"], the three
    summaries go through. *)
Lemma loaded_run_no_clash (E : env) (input d : pystr) (df : list Series) (w : world) :
  no_count_header df = true ->
  loaded_run E input d df w =
  (Done true,
   mk_world (console w ++ loaded_console E input d df)
     (dirs w ++ made_dirs d)
     (write_files (loaded_files E d df) (files w))).
Proof.
  unfold no_count_header. intros H.
  apply andb_true_iff in H as [H C7]. apply andb_true_iff in H as [C4 C2].
  apply negb_true_iff in C4, C2, C7.
  unfold loaded_run. rewrite C4, C2, C7.
  unfold loaded_files. rewrite !write_files_app, !write_files_report.
  unfold announce, after_report, loaded_console. cbn [console dirs files].
  f_equal. f_equal.
  repeat progress (rewrite <- ?app_assoc; cbn [app]). reflexivity.
Qed.

Lemma loaded_run_clash (E : env) (input d : pystr) (df : list Series) (w : world) :
  no_count_header df = false ->
  fst (loaded_run E input d df w) = Done false.
Proof.
  unfold no_count_header, loaded_run. intros H.
  destruct (named_count (column_or_empty df 4)); [reflexivity|].
  destruct (named_count (column_or_empty df 2)); [reflexivity|].
  destruct (named_count (column_or_empty df 7)); [reflexivity|discriminate].
Qed.


(** ** Claims about the loader and the run *)

Lemma kept_text_cells (cs : list file_cell) :
  Forall (fun c => converted c = None) cs ->
  filter (fun s => negb (null_like s)) (List.map (fun c => normalize (read_cell c)) cs) =
  filter (fun s => negb (null_like s))
    (List.map strip
       (filter (fun text => negb (is_na_value text)) (List.map cell_text cs))).
Proof.
  induction 1 as [|c cs Hc _ IH]; [reflexivity|].
  cbn [List.map filter].
  destruct (is_na_value (cell_text c)) eqn:Ena; cbn [negb List.map filter].
  - assert (Hr : read_cell c = NaN) by (unfold read_cell; now rewrite Ena).
    rewrite Hr. exact IH.
  - assert (Hr : normalize (read_cell c) = strip (cell_text c))
      by (unfold read_cell; now rewrite Ena, Hc).
    rewrite Hr.
    destruct (null_like (strip (cell_text c))); cbn [negb]; now rewrite IH.
Qed.

Lemma selected_column_values (table : list file_column) (i : nat) :
  i < List.length table ->
  values (column_or_empty (List.map column_values table) i) =
  List.map read_cell (cells (nth i table (mk_column [] []))).
Proof.
  intros H. unfold column_or_empty. rewrite length_map.
  apply Nat.ltb_lt in H. rewrite H.
  change empty_Series with (mk_Series None (List.map read_cell (cells (mk_column [] [])))).
  destruct (Nat.ltb_lt i (List.length table)) as [L _]. specialize (L H).
  clear H. revert i L. induction table as [|c t IH]; intros [|i] L; simpl in *;
    try lia; [reflexivity|]. apply IH. lia.
Qed.

(** C5, as the code has it.  [pd.read_csv] is called with its defaults
    and each summary starts with [astype(str)], so what the summarizer
    normalizes for a cell of the file is the text form of the value the
    loader made of it.  That is the text of the cell itself only when the
    text is not one of pandas' markers of a missing value and type
    inference left the cell alone.  A cell holding a marker arrives as
    [nan], whose text ["nan"] is null-like.  A cell that type inference
    converted arrives as the converted value and goes on under the text
    of that value.  Over a column whose cells were all left alone, the
    operating-system summary counts a cell as ["Unknown"] when it holds
    a marker or is null-like once trimmed, and under its trimmed text
    otherwise; the hostname and vulnerability summaries count the trimmed
    texts of the cells that hold no marker and are not null-like. *)
Theorem file_cell_reaches_summarizer :
  (forall c : file_cell,
     (is_na_value (cell_text c) = true ->
        read_cell c = NaN
        /\ normalize (read_cell c) = py "nan"
        /\ mark_null None (normalize (read_cell c)) = None
        /\ mark_null (Some (py "Unknown")) (normalize (read_cell c)) = Some (py "Unknown"))
     /\ (is_na_value (cell_text c) = false -> converted c = None ->
           read_cell c = Str (cell_text c)
           /\ normalize (read_cell c) = strip (cell_text c))
     /\ (forall v : cell,
           is_na_value (cell_text c) = false -> converted c = Some v ->
           read_cell c = v
           /\ normalize (read_cell c) = strip (astype_str v)))
  /\ (forall (table : list file_column) (i : nat),
        i < List.length table ->
        values (column_or_empty (List.map column_values table) i) =
        List.map read_cell (cells (nth i table (mk_column [] []))))
  /\ (forall col : file_column,
        Forall (fun c => converted c = None) (cells col) ->
        os_cleaned (values (column_values col)) =
        List.map (fun c =>
                    Some (if is_na_value (cell_text c) || null_like (strip (cell_text c))
                          then py "Unknown" else strip (cell_text c))) (cells col)
        /\ hostname_cleaned (values (column_values col)) =
           List.map Some
             (filter (fun s => negb (null_like s))
                (List.map strip
                   (filter (fun text => negb (is_na_value text))
                      (List.map cell_text (cells col)))))
        /\ vuln_cleaned (values (column_values col)) =
           List.map Some
             (filter (fun s => negb (null_like s))
                (List.map strip
                   (filter (fun text => negb (is_na_value text))
                      (List.map cell_text (cells col)))))).
Proof.
  split; [|split].
  - intros c. unfold read_cell, normalize. split; [|split].
    + intros H. rewrite H. repeat split; reflexivity.
    + intros H K. rewrite H, K. split; reflexivity.
    + intros v H K. rewrite H, K. split; reflexivity.
  - apply selected_column_values.
  - intros col H. cbn [column_values values]. split; [|split].
    + rewrite os_cleaned_spec, map_map.
      apply map_ext_in. intros c Hc.
      rewrite Forall_forall in H. specialize (H c Hc).
      unfold read_cell, normalize. rewrite H.
      now destruct (is_na_value (cell_text c)).
    + rewrite hostname_cleaned_mark, dropna_mark_spec, map_map.
      f_equal. now apply kept_text_cells.
    + rewrite vuln_cleaned_mark, dropna_mark_spec, map_map.
      f_equal. now apply kept_text_cells.
Qed.

Lemma file_cell_reaches_summarizer_witness :
  normalize (read_cell (text_cell (py " web01 "))) = py "web01"
  /\ normalize (read_cell (text_cell (py "None"))) = py "nan"
  /\ normalize (read_cell (mk_cell (py "007") (Some (Int 7)))) = py "7".
Proof.
  destruct file_cell_reaches_summarizer as (H & _).
  split; [|split].
  - exact (proj2 (proj1 (proj2 (H (text_cell (py " web01 ")))) eq_refl eq_refl)).
  - exact (proj1 (proj2 (proj1 (H (text_cell (py "None"))) eq_refl))).
  - exact (proj2 (proj2 (proj2 (H (mk_cell (py "007") (Some (Int 7))))) (Int 7)
                    eq_refl eq_refl)).
Defined.

(** C5 as stated fails, in two ways.  The cell text ["n/a"] is read as a
    missing value: the summarizer receives [nan] (text ["nan"]) and a
    host named ["n/a"] disappears from the hostname summary.  The cell
    text ["007"] of a column of numbers is converted to the integer 7:
    the summarizer receives a parsed number, and the hosts ["007"] and
    ["042"] are reported as ["7"] and ["42"]. *)
Lemma file_cell_is_not_always_received_as_text :
  astype_str (read_cell (text_cell (py "n/a"))) <> py "n/a"
  /\ astype_str (read_cell (mk_cell (py "007") (Some (Int 7)))) <> py "007"
  /\ rows (hostname_counts
             (values (column_values
                (mk_column (py "hostname") [text_cell (py "web01"); text_cell (py "n/a")])))) =
     [(py "web01", 1)]
  /\ rows (hostname_counts
             (values (column_values
                (mk_column (py "hostname")
                   [mk_cell (py "007") (Some (Int 7));
                    mk_cell (py "042") (Some (Int 42))])))) =
     [(py "42", 1); (py "7", 1)].
Proof.
  split; [discriminate|]. split; [discriminate|]. split; reflexivity.
Qed.

(** ** Columns that are missing, columns headed ["count"] *)

Lemma column_or_empty_missing (df : list Series) (i : nat) :
  List.length df <= i -> column_or_empty df i = empty_Series.
Proof.
  intros H. unfold column_or_empty.
  destruct (i <? List.length df) eqn:E; [|reflexivity].
  apply Nat.ltb_lt in E. lia.
Qed.

Lemma column_or_empty_present (table : list file_column) (i : nat) :
  i < List.length table ->
  column_or_empty (List.map column_values table) i =
  column_values (nth i table (mk_column [] [])).
Proof.
  intros H. unfold column_or_empty. rewrite length_map.
  pose proof H as L. apply Nat.ltb_lt in H. rewrite H.
  rewrite (nth_indep _ empty_Series (column_values (mk_column [] [])))
    by (now rewrite length_map).
  apply map_nth.
Qed.

Lemma named_count_selected (table : list file_column) (i : nat) :
  named_count (column_or_empty (List.map column_values table) i) = true
  <-> i < List.length table /\ header (nth i table (mk_column [] [])) = py "count".
Proof.
  destruct (Nat.lt_ge_cases i (List.length table)) as [L|G].
  - rewrite (column_or_empty_present table i L).
    unfold named_count. cbn [column_values name]. rewrite str_eqb_eq. tauto.
  - rewrite column_or_empty_missing by (now rewrite length_map).
    cbn. split; [discriminate|lia].
Qed.

Lemma no_count_header_iff (table : list file_column) :
  no_count_header (List.map column_values table) = true
  <-> no_column_headed_count table.
Proof.
  unfold no_count_header, no_column_headed_count.
  rewrite !andb_true_iff, !negb_true_iff.
  split.
  - intros [[H4 H2] H7] i Hi L E.
    assert (C : named_count (column_or_empty (List.map column_values table) i) = true)
      by (apply named_count_selected; auto).
    cbn [In] in Hi. destruct Hi as [<-|[<-|[<-|[]]]]; congruence.
  - intros H.
    assert (K : forall i, In i [2; 4; 7] ->
                named_count (column_or_empty (List.map column_values table) i) = false).
    { intros i Hi.
      destruct (named_count (column_or_empty (List.map column_values table) i)) eqn:C;
        [|reflexivity].
      apply named_count_selected in C as [L E]. now elim (H i Hi L). }
    repeat split; apply K; cbn [In]; auto.
Qed.

(** ** Files on disk *)

Lemma read_file_write_same (p : pystr) (f : frame) (fs : list (pystr * frame)) :
  read_file p (write_file p f fs) = Some f.
Proof.
  unfold read_file, write_file.
  induction fs as [|[q g] fs IH]; cbn [filter app find fst].
  - now rewrite str_eqb_refl.
  - destruct (str_eqb q p) eqn:E; cbn [negb]; [exact IH|].
    cbn [app find fst]. now rewrite E.
Qed.

Lemma read_file_write_other (p q : pystr) (f : frame) (fs : list (pystr * frame)) :
  q <> p -> read_file q (write_file p f fs) = read_file q fs.
Proof.
  intros Hq. unfold read_file, write_file.
  induction fs as [|[r g] fs IH]; cbn [filter app find fst].
  - apply str_eqb_neq in Hq. rewrite str_eqb_sym, Hq. reflexivity.
  - destruct (str_eqb r p) eqn:E; cbn [negb].
    + apply str_eqb_eq in E. subst r.
      assert (N : str_eqb p q = false) by (apply str_eqb_neq; congruence).
      rewrite N. exact IH.
    + cbn [app find fst]. destruct (str_eqb r q); [reflexivity|exact IH].
Qed.

Lemma read_file_write_files_other (new fs : list (pystr * frame)) (q : pystr) :
  ~ In q (List.map fst new) ->
  read_file q (write_files new fs) = read_file q fs.
Proof.
  unfold write_files. revert fs.
  induction new as [|[p f] new IH]; intros fs H; [reflexivity|].
  cbn [fold_left fst snd]. rewrite IH.
  - apply read_file_write_other. intros ->. apply H. now left.
  - intros K. apply H. now right.
Qed.


Lemma read_file_write_files_last (new fs : list (pystr * frame)) (q : pystr) (g : frame) :
  NoDup (List.map fst new) -> In (q, g) new ->
  read_file q (write_files new fs) = Some g.
Proof.
  unfold write_files. revert fs.
  induction new as [|[p f] new IH]; intros fs D H; [contradiction|].
  cbn [List.map fst] in D. inversion D as [|? ? Hn D']; subst.
  cbn [fold_left fst snd]. destruct H as [H|H].
  - injection H as -> ->.
    change (fold_left _ new ?x) with (write_files new x).
    rewrite read_file_write_files_other by exact Hn.
    apply read_file_write_same.
  - now apply IH.
Qed.


(** * Further properties of the summaries *)

Lemma tally_exact (xs : list pystr) (l : pystr) (c : nat) :
  In (l, c) (tally xs) <-> c = occurrences l xs /\ 1 <= c.
Proof.
  split.
  - intros Hin. split.
    + rewrite <- tally_for. symmetry. apply count_for_In; [apply tally_NoDup|exact Hin].
    + pose proof (tally_pos xs) as Hp. rewrite Forall_forall in Hp. apply (Hp _ Hin).
  - intros [-> Hc]. rewrite <- tally_for in *. apply count_for_row. lia.
Qed.

Lemma NoDup_rows_of_labels (rs : list (pystr * nat)) :
  NoDup (List.map fst rs) -> NoDup rs.
Proof. apply NoDup_map_inv. Qed.

Lemma tally_perm (xs ys : list pystr) :
  Permutation xs ys -> Permutation (tally xs) (tally ys).
Proof.
  intros P. apply NoDup_Permutation.
  - apply NoDup_rows_of_labels, tally_NoDup.
  - apply NoDup_rows_of_labels, tally_NoDup.
  - intros [l c]. rewrite !tally_exact. unfold occurrences.
    rewrite (proj1 (Permutation_count_occ pystr_eq_dec xs ys) P l). tauto.
Qed.

Lemma strs_perm (xs ys : list obj) :
  Permutation xs ys -> Permutation (strs xs) (strs ys).
Proof.
  induction 1 as [|x xs ys P IH|x y xs|xs ys zs P1 IH1 P2 IH2]; simpl.
  - constructor.
  - destruct x; [now constructor|exact IH].
  - destruct x, y; try reflexivity. apply perm_swap.
  - now transitivity (strs ys).
Qed.

Lemma filter_perm (A : Type) (p : A -> bool) (xs ys : list A) :
  Permutation xs ys -> Permutation (filter p xs) (filter p ys).
Proof.
  induction 1 as [|x xs ys P IH|x y xs|xs ys zs P1 IH1 P2 IH2]; simpl.
  - constructor.
  - destruct (p x); [now constructor|exact IH].
  - destruct (p x), (p y); try reflexivity. apply perm_swap.
  - now transitivity (filter p ys).
Qed.

(** The frame of a summary depends on the cleaned values only up to
    their order. *)
Lemma summary_perm (names : pystr * pystr) (xs ys : list obj) :
  Permutation xs ys ->
  sort_values (reset_index_named names (value_counts xs)) =
  sort_values (reset_index_named names (value_counts ys)).
Proof.
  intros P.
  assert (R : rows (sort_values (reset_index_named names (value_counts ys))) =
              rows (sort_values (reset_index_named names (value_counts xs)))).
  { apply summary_rows_determined; [|apply summary_rows_ascending].
    rewrite summary_rows_perm. apply tally_perm, strs_perm. now symmetry. }
  unfold sort_values in *. cbn [rows columns reset_index_named] in *.
  now rewrite R.
Qed.

(** X6. The order of the rows of the input does not show in a summary:
    two columns that hold the same values in a different order give the
    same frame. *)
Theorem summary_ignores_row_order :
  forall col col' : series,
    Permutation col col' ->
    os_counts col = os_counts col'
    /\ hostname_counts col = hostname_counts col'
    /\ vuln_counts col = vuln_counts col'.
Proof.
  intros col col' P. unfold os_counts, hostname_counts, vuln_counts.
  split; [|split]; apply summary_perm.
  - unfold os_cleaned, astype_str_strip. now repeat apply Permutation_map.
  - unfold hostname_cleaned, astype_str_strip, dropna.
    apply filter_perm. now repeat apply Permutation_map.
  - unfold vuln_cleaned, astype_str_strip, dropna.
    apply filter_perm. now repeat apply Permutation_map.
Qed.

Lemma summary_ignores_row_order_witness :
  hostname_counts [Str (py "web02"); NaN; Str (py "web01")] =
  hostname_counts [Str (py "web01"); Str (py "web02"); NaN].
Proof.
  refine (proj1 (proj2 (summary_ignores_row_order
            [Str (py "web02"); NaN; Str (py "web01")]
            [Str (py "web01"); Str (py "web02"); NaN] _))).
  apply Permutation_sym, (Permutation_cons_app [Str (py "web02"); NaN] []).
  rewrite app_nil_r. apply Permutation_refl.
Defined.

(** ** Trimming *)

Lemma lstrip_snoc (l : pystr) (c : N) :
  isspace c = false -> lstrip (l ++ [c]) = lstrip l ++ [c].
Proof.
  intros Hc. induction l as [|x l IH]; simpl.
  - now rewrite Hc.
  - destruct (isspace x); [exact IH|reflexivity].
Qed.

Lemma lstrip_fixed (s : pystr) :
  match s with [] => True | c :: _ => isspace c = false end -> lstrip s = s.
Proof.
  destruct s as [|c s]; simpl; [reflexivity|]. now intros ->.
Qed.

Lemma strip_shape (s : pystr) :
  strip s = [] \/
  exists c r, isspace c = false /\ strip s = c :: rev (lstrip (rev r)).
Proof.
  unfold strip, rstrip.
  destruct (lstrip s) as [|c r] eqn:E; [now left|right].
  exists c, r. split; [exact (lstrip_head _ E)|].
  cbn [rev]. rewrite lstrip_snoc by exact (lstrip_head _ E).
  rewrite rev_app_distr. reflexivity.
Qed.

(** Trimming twice is trimming once. *)
Lemma strip_idempotent (s : pystr) : strip (strip s) = strip s.
Proof.
  destruct (strip_shape s) as [->|(c & r & Hc & ->)]; [reflexivity|].
  unfold strip, rstrip. cbn [lstrip]. rewrite Hc.
  cbn [rev]. rewrite rev_involutive, lstrip_snoc by exact Hc.
  rewrite lstrip_idem, rev_app_distr. reflexivity.
Qed.

Lemma normalize_idempotent (c : cell) : normalize (Str (normalize c)) = normalize c.
Proof. unfold normalize. cbn [astype_str]. apply strip_idempotent. Qed.

(** X8. Cleaning is idempotent on the input side: a column whose values
    were already converted to text and trimmed gives the same three
    frames as the raw column. *)
Theorem summary_unchanged_by_pretrimming :
  forall col : series,
    os_counts (List.map (fun c => Str (normalize c)) col) = os_counts col
    /\ hostname_counts (List.map (fun c => Str (normalize c)) col) = hostname_counts col
    /\ vuln_counts (List.map (fun c => Str (normalize c)) col) = vuln_counts col.
Proof.
  intros col.
  assert (H : List.map (fun c => mark_null (Some Unknown) (normalize c))
                (List.map (fun c => Str (normalize c)) col) =
              List.map (fun c => mark_null (Some Unknown) (normalize c)) col).
  { rewrite map_map. apply map_ext. intros c. now rewrite normalize_idempotent. }
  assert (H' : List.map (fun c => mark_null None (normalize c))
                 (List.map (fun c => Str (normalize c)) col) =
               List.map (fun c => mark_null None (normalize c)) col).
  { rewrite map_map. apply map_ext. intros c. now rewrite normalize_idempotent. }
  unfold os_counts, hostname_counts, vuln_counts.
  split; [|split].
  - now rewrite !os_cleaned_mark, H.
  - now rewrite !hostname_cleaned_mark, H'.
  - now rewrite !vuln_cleaned_mark, H'.
Qed.

(** ** What a label can be *)

Lemma occurrences_In (l : pystr) (xs : list pystr) :
  1 <= occurrences l xs -> In l xs.
Proof.
  unfold occurrences. intros H.
  apply (count_occ_In pystr_eq_dec). lia.
Qed.

Lemma summary_label_In (names : pystr * pystr) (xs : list obj) (l : pystr) :
  In l (List.map fst (rows (sort_values (reset_index_named names (value_counts xs)))))
  <-> In l (strs xs).
Proof.
  split.
  - intros H. apply in_map_iff in H as ([l' c] & <- & Hin).
    apply summary_rows_exact in Hin as [-> Hc]. now apply occurrences_In.
  - intros H. apply in_map_iff. exists (l, occurrences l (strs xs)).
    split; [reflexivity|]. apply summary_rows_exact. split; [reflexivity|].
    unfold occurrences. apply (count_occ_In pystr_eq_dec) in H. lia.
Qed.

Lemma strs_os_cleaned (col : series) :
  strs (os_cleaned col) =
  List.map (fun c => if null_like (normalize c) then Unknown else normalize c) col.
Proof.
  rewrite os_cleaned_spec.
  rewrite <- (map_map (fun c => if null_like (normalize c) then Unknown else normalize c) Some).
  apply strs_map_Some.
Qed.

Lemma strs_kept (col : series) :
  strs (dropna (List.map (fun c => mark_null None (normalize c)) col)) =
  filter (fun s => negb (null_like s)) (List.map normalize col).
Proof. rewrite dropna_mark_spec. apply strs_map_Some. Qed.

(** X7. No summary carries a label that is null-like, and every label is
    trimmed: it is not empty, not whitespace, none of ["nan"], ["NaN"],
    ["null"], ["NULL"], and trimming it again changes nothing. *)
Theorem labels_are_trimmed_and_not_null_like :
  forall (col : series) (l : pystr),
    In l (List.map fst (rows (os_counts col)))
    \/ In l (List.map fst (rows (hostname_counts col)))
    \/ In l (List.map fst (rows (vuln_counts col))) ->
    null_like l = false /\ strip l = l /\ l <> py "".
Proof.
  intros col l H.
  assert (G : null_like l = false /\ strip l = l).
  { unfold os_counts, hostname_counts, vuln_counts in H.
    rewrite !summary_label_In in H.
    destruct H as [H|[H|H]];
      [rewrite strs_os_cleaned in H
      |rewrite hostname_cleaned_mark, strs_kept in H
      |rewrite vuln_cleaned_mark, strs_kept in H].
    - apply in_map_iff in H as (c & <- & _).
      destruct (null_like (normalize c)) eqn:E.
      + split; reflexivity.
      + split; [exact E|apply strip_idempotent].
    - apply filter_In in H as [H E]. apply in_map_iff in H as (c & <- & _).
      apply negb_true_iff in E. split; [exact E|apply strip_idempotent].
    - apply filter_In in H as [H E]. apply in_map_iff in H as (c & <- & _).
      apply negb_true_iff in E. split; [exact E|apply strip_idempotent]. }
  destruct G as [G1 G2]. repeat split; auto.
  intros ->. discriminate G1.
Qed.

Lemma labels_are_trimmed_and_not_null_like_witness :
  null_like (py "linux") = false /\ strip (py "linux") = py "linux" /\ py "linux" <> py "".
Proof.
  apply (labels_are_trimmed_and_not_null_like
           [Str (py " linux "); Str (py "")] (py "linux")).
  left. right. left. reflexivity.
Defined.

(** ** How many rows *)

Lemma rows_le_total (rs : list (pystr * nat)) :
  Forall (fun r => 1 <= snd r) rs -> List.length rs <= total rs.
Proof.
  induction 1 as [|r rs Hr _ IH]; [apply Nat.le_refl|].
  change (total (r :: rs)) with (snd r + total rs). cbn [List.length]. lia.
Qed.

Lemma summary_rows_length (names : pystr * pystr) (xs : list obj) :
  List.length (rows (sort_values (reset_index_named names (value_counts xs))))
  <= List.length (strs xs).
Proof.
  rewrite <- (summary_rows_total names xs).
  apply rows_le_total, summary_rows_pos.
Qed.

Lemma summary_rows_nil (names : pystr * pystr) (xs : list obj) :
  rows (sort_values (reset_index_named names (value_counts xs))) = [] <-> strs xs = [].
Proof.
  split; intros H.
  - pose proof (summary_rows_total names xs) as T. rewrite H in T. simpl in T.
    destruct (strs xs); [reflexivity|discriminate].
  - pose proof (summary_rows_length names xs) as L. rewrite H in L.
    cbn [List.length strs] in L. apply length_zero_iff_nil. lia.
Qed.

Lemma filter_nil_iff (A : Type) (p : A -> bool) (l : list A) :
  filter p l = [] <-> Forall (fun x => p x = false) l.
Proof.
  induction l as [|x l IH]; simpl.
  - split; constructor.
  - destruct (p x) eqn:E.
    + split; [discriminate|]. intros H. inversion H; congruence.
    + rewrite IH. split; [now constructor|]. intros H. now inversion H.
Qed.

Lemma kept_nil_iff (col : series) :
  strs (dropna (List.map (fun c => mark_null None (normalize c)) col)) = []
  <-> Forall (fun c => null_like (normalize c) = true) col.
Proof.
  rewrite strs_kept.
  induction col as [|c col IH]; simpl.
  - split; constructor.
  - destruct (null_like (normalize c)) eqn:E; simpl.
    + rewrite IH. split; [now constructor|]. intros H. now inversion H.
    + split; [discriminate|]. intros H. inversion H; congruence.
Qed.

(** X9. A summary never has more rows than the column has values that
    are counted.  The operating-system summary is without rows only for
    a column without values; the hostname and vulnerability summaries
    are without rows exactly when every value of the column is
    null-like. *)
Theorem summary_size :
  forall col : series,
    List.length (rows (os_counts col)) <= List.length col
    /\ List.length (rows (hostname_counts col))
       <= List.length (filter (fun c => negb (null_like (normalize c))) col)
    /\ List.length (rows (vuln_counts col))
       <= List.length (filter (fun c => negb (null_like (normalize c))) col)
    /\ (rows (os_counts col) = [] <-> col = [])
    /\ (rows (hostname_counts col) = []
        <-> Forall (fun c => null_like (normalize c) = true) col)
    /\ (rows (vuln_counts col) = []
        <-> Forall (fun c => null_like (normalize c) = true) col).
Proof.
  intros col. unfold os_counts, hostname_counts, vuln_counts.
  split; [|split; [|split; [|split; [|split]]]].
  - rewrite <- (length_strs_os_cleaned col). apply summary_rows_length.
  - rewrite <- length_strs_dropna_mark, <- hostname_cleaned_mark.
    apply summary_rows_length.
  - rewrite <- length_strs_dropna_mark, <- vuln_cleaned_mark.
    apply summary_rows_length.
  - rewrite summary_rows_nil. pose proof (length_strs_os_cleaned col) as L.
    split; intros H.
    + rewrite H in L. destruct col; [reflexivity|discriminate].
    + subst col. reflexivity.
  - rewrite summary_rows_nil, hostname_cleaned_mark. apply kept_nil_iff.
  - rewrite summary_rows_nil, vuln_cleaned_mark. apply kept_nil_iff.
Qed.

(** ** The two ways of treating a null-like value *)

Lemma occurrences_off_Unknown (col : series) (l : pystr) :
  l <> py "Unknown" ->
  occurrences l (strs (os_cleaned col)) =
  occurrences l (strs (dropna (List.map (fun c => mark_null None (normalize c)) col))).
Proof.
  intros Hl. rewrite strs_os_cleaned, strs_kept. unfold occurrences.
  induction col as [|c col IH]; [reflexivity|].
  cbn [List.map filter].
  destruct (null_like (normalize c)); cbn [negb count_occ].
  - destruct (pystr_eq_dec Unknown l) as [E|_]; [|exact IH].
    exfalso. apply Hl. now rewrite <- E.
  - destruct (pystr_eq_dec (normalize c) l); now rewrite IH.
Qed.

(** X10. Replacing and dropping differ on the row ["Unknown"] only: for
    one and the same column, every other label has a row in the
    operating-system summary exactly when it has one in the hostname
    summary, with the same count; and the hostname and vulnerability
    summaries have the same rows. *)
Theorem policies_differ_only_on_unknown :
  forall (col : series) (l : pystr) (c : nat),
    l <> py "Unknown" ->
    (In (l, c) (rows (os_counts col)) <-> In (l, c) (rows (hostname_counts col)))
    /\ rows (hostname_counts col) = rows (vuln_counts col).
Proof.
  intros col l c Hl. split; [|reflexivity].
  unfold os_counts, hostname_counts.
  rewrite !summary_rows_exact, hostname_cleaned_mark.
  now rewrite (occurrences_off_Unknown col l Hl).
Qed.

Lemma policies_differ_only_on_unknown_witness :
  In (py "Linux", 2)
     (rows (hostname_counts [Str (py "Linux"); NaN; Str (py " Linux"); Str (py "")])).
Proof.
  assert (Hl : py "Linux" <> py "Unknown") by discriminate.
  assert (Hos : In (py "Linux", 2)
                  (rows (os_counts [Str (py "Linux"); NaN; Str (py " Linux"); Str (py "")]))).
  { left. reflexivity. }
  exact (proj1 (proj1 (policies_differ_only_on_unknown
                         [Str (py "Linux"); NaN; Str (py " Linux"); Str (py "")]
                         (py "Linux") 2 Hl)) Hos).
Defined.

(** * Further properties of the paths *)

Lemma join_inj (d f g : pystr) :
  OsPath.startswith_sep f = false -> OsPath.startswith_sep g = false ->
  OsPath.join d f = OsPath.join d g -> f = g.
Proof.
  unfold OsPath.join. intros -> ->.
  destruct (OsPath.is_empty d || OsPath.startswith_sep (rev d)); intros H;
    apply app_inv_head in H; [exact H|now injection H].
Qed.

Lemma report_path_inj (d : pystr) (p q : string) (ts : pystr) :
  OsPath.startswith_sep (py p) = false -> OsPath.startswith_sep (py q) = false ->
  py p <> [] -> py q <> [] ->
  report_path d p ts = report_path d q ts ->
  py p ++ ts ++ py ".csv" = py q ++ ts ++ py ".csv".
Proof.
  intros Hp Hq Np Nq H. unfold report_path in H.
  apply join_inj in H; [exact H| |].
  - destruct (py p); [contradiction|exact Hp].
  - destruct (py q); [contradiction|exact Hq].
Qed.

Lemma report_paths_differ (d ts : pystr) :
  report_path d "os_summary_" ts <> report_path d "hostname_summary_" ts
  /\ report_path d "os_summary_" ts <> report_path d "vuln_" ts
  /\ report_path d "hostname_summary_" ts <> report_path d "vuln_" ts.
Proof.
  repeat split; intros H; apply report_path_inj in H;
    solve [discriminate H | reflexivity | discriminate].
Qed.

(** X4. The three reports of a run never share a path, whatever the
    output directory and the timestamp are: no report overwrites
    another. *)
Theorem report_paths_distinct :
  forall (E : env) (d : pystr) (df : list Series),
    os_path E d <> hostname_path E d
    /\ os_path E d <> vuln_path E d
    /\ hostname_path E d <> vuln_path E d
    /\ NoDup (List.map fst (loaded_files E d df)).
Proof.
  intros E d df. unfold os_path, hostname_path, vuln_path.
  destruct (report_paths_differ d (now E)) as (H1 & H2 & H3).
  repeat split; auto.
  unfold loaded_files, report_file.
  destruct (writes E (report_path d "os_summary_" (now E)));
    destruct (writes E (report_path d "hostname_summary_" (now E)));
    destruct (writes E (report_path d "vuln_" (now E)));
    cbn [app List.map fst]; repeat constructor; cbn [In]; intuition congruence.
Qed.

Lemma no_sep_cons (c : N) (s : pystr) :
  no_sep (c :: s) = negb (OsPath.is_sep c) && no_sep s.
Proof. reflexivity. Qed.

Lemma no_sep_app (a b : pystr) : no_sep (a ++ b) = no_sep a && no_sep b.
Proof. apply forallb_app. Qed.

Lemma forallb_rev_eq (A : Type) (p : A -> bool) (l : list A) :
  forallb p (rev l) = forallb p l.
Proof.
  induction l as [|x l IH]; [reflexivity|].
  cbn [rev forallb]. rewrite forallb_app, IH. cbn [forallb].
  rewrite andb_true_r. apply andb_comm.
Qed.

Lemma from_sep_no_sep_app (a b : pystr) :
  no_sep a = true -> OsPath.from_sep (a ++ b) = OsPath.from_sep b.
Proof.
  induction a as [|c a IH]; [reflexivity|].
  rewrite no_sep_cons. intros H. apply andb_true_iff in H as [Hc Ha].
  apply negb_true_iff in Hc. cbn [app OsPath.from_sep]. rewrite Hc. now apply IH.
Qed.

Lemma lstrip_sep_idem (r : pystr) :
  OsPath.lstrip_sep (OsPath.lstrip_sep r) = OsPath.lstrip_sep r.
Proof.
  induction r as [|c r IH]; [reflexivity|].
  cbn [OsPath.lstrip_sep]. destruct (OsPath.is_sep c) eqn:E; [exact IH|].
  cbn [OsPath.lstrip_sep]. now rewrite E.
Qed.

Lemma rstrip_sep_idem (d : pystr) : rstrip_sep (rstrip_sep d) = rstrip_sep d.
Proof.
  unfold rstrip_sep. now rewrite rev_involutive, lstrip_sep_idem.
Qed.

(** [os.path.dirname(os.path.join(d, f))] for a file name without
    ['/']: [d] without its trailing slashes, or [d] itself when it is
    made of slashes only. *)
Lemma dirname_join (d f : pystr) :
  no_sep f = true ->
  OsPath.dirname (OsPath.join d f) =
  if forallb OsPath.is_sep d then d else rstrip_sep d.
Proof.
  intros Hf.
  assert (Sf : OsPath.startswith_sep f = false).
  { destruct f as [|c f]; [reflexivity|].
    rewrite no_sep_cons in Hf. apply andb_true_iff in Hf as [Hc _].
    now apply negb_true_iff in Hc. }
  assert (Rf : no_sep (rev f) = true) by (unfold no_sep; now rewrite forallb_rev_eq).
  unfold OsPath.join. rewrite Sf.
  destruct d as [|x d'] eqn:Ed.
  - cbn [OsPath.is_empty orb app forallb]. unfold OsPath.dirname.
    rewrite <- (app_nil_r (rev f)), from_sep_no_sep_app by exact Rf. reflexivity.
  - rewrite <- Ed. assert (Nd : OsPath.is_empty d = false) by now subst.
    rewrite Nd. cbn [orb].
    destruct (rev d) as [|c r] eqn:Er.
    { apply (f_equal (@rev N)) in Er. rewrite rev_involutive in Er. subst. discriminate. }
    cbn [OsPath.startswith_sep].
    assert (Fd : forallb OsPath.is_sep d = OsPath.is_sep c && forallb OsPath.is_sep r).
    { rewrite <- forallb_rev_eq, Er. reflexivity. }
    destruct (OsPath.is_sep c) eqn:Ec.
    + unfold OsPath.dirname. rewrite rev_app_distr, from_sep_no_sep_app by exact Rf.
      rewrite Er. cbn [OsPath.from_sep]. rewrite Ec, <- Er, rev_involutive, Nd.
      cbn [negb andb]. unfold rstrip_sep.
      now destruct (forallb OsPath.is_sep d).
    + rewrite Fd. cbn [andb]. unfold OsPath.dirname.
      rewrite rev_app_distr. cbn [rev]. rewrite <- app_assoc.
      rewrite from_sep_no_sep_app by exact Rf.
      cbn [app OsPath.from_sep]. change (OsPath.is_sep 47) with true. cbv iota.
      cbn [rev]. rewrite rev_involutive.
      assert (Ne : OsPath.is_empty (d ++ [47%N]) = false) by (now destruct d).
      rewrite Ne, forallb_app, Fd. cbn [andb negb].
      rewrite rev_app_distr. cbn [rev app OsPath.lstrip_sep].
      change (OsPath.is_sep 47) with true. cbv iota. reflexivity.
Qed.

Lemma dirname_stable (p : pystr) :
  forallb OsPath.is_sep (OsPath.dirname p) = true
  \/ rstrip_sep (OsPath.dirname p) = OsPath.dirname p.
Proof.
  unfold OsPath.dirname.
  set (head := rev (OsPath.from_sep (rev p))).
  destruct (OsPath.is_empty head) eqn:E.
  - left. destruct head; [reflexivity|discriminate].
  - cbn [negb andb]. destruct (forallb OsPath.is_sep head) eqn:F.
    + left. exact F.
    + right. cbn [negb]. apply rstrip_sep_idem.
Qed.

(** X5. Every report is created directly in the output directory: the
    directory part of a report path is the output directory without its
    trailing slashes (or the directory itself when it is ["/"]-only or
    empty).  When no output directory is given, it is exactly the
    directory of the input file, or ["."] for a bare file name. *)
Theorem reports_are_created_in_the_output_directory :
  forall (input : pystr) (outdir : option pystr) (prefix : string) (ts : pystr),
    no_sep (py prefix) = true ->
    no_sep ts = true ->
    OsPath.dirname (report_path (output_directory_for input outdir) prefix ts) =
    (if forallb OsPath.is_sep (output_directory_for input outdir)
     then output_directory_for input outdir
     else rstrip_sep (output_directory_for input outdir))
    /\ (outdir = None ->
        OsPath.dirname (report_path (output_directory_for input None) prefix ts) =
        output_directory_for input None).
Proof.
  intros input outdir prefix ts Hp Ht.
  assert (Hf : no_sep (py prefix ++ ts ++ py ".csv") = true).
  { rewrite !no_sep_app, Hp, Ht. reflexivity. }
  split; [apply dirname_join, Hf|]. intros _.
  unfold report_path. rewrite dirname_join by exact Hf.
  unfold output_directory_for.
  destruct (OsPath.is_empty (OsPath.dirname input)) eqn:E; [reflexivity|].
  destruct (dirname_stable input) as [H|H]; rewrite ?H; [reflexivity|].
  now destruct (forallb OsPath.is_sep (OsPath.dirname input)).
Qed.

Lemma reports_are_created_in_the_output_directory_witness :
  OsPath.dirname (py "data/in/os_summary_20250101_120000.csv") = py "data/in".
Proof.
  exact (proj2 (reports_are_created_in_the_output_directory
                  (py "data/in/servers.csv") None "os_summary_" (py "20250101_120000")
                  eq_refl eq_refl) eq_refl).
Defined.

(** * Claims about a run *)

Lemma loaded_files_NoDup (E : env) (d : pystr) (df : list Series) :
  NoDup (List.map fst (loaded_files E d df)).
Proof.
  destruct (report_paths_differ d (now E)) as (H1 & H2 & H3).
  unfold loaded_files, report_file.
  destruct (writes E (report_path d "os_summary_" (now E)));
    destruct (writes E (report_path d "hostname_summary_" (now E)));
    destruct (writes E (report_path d "vuln_" (now E)));
    cbn [app List.map fst]; repeat constructor; cbn [In]; intuition congruence.
Qed.

Lemma loaded_files_In (E : env) (d : pystr) (df : list Series) (p : pystr) (f : frame) :
  In (p, f) (loaded_files E d df)
  <-> writes E p = true
      /\ ((p = report_path d "os_summary_" (now E) /\ f = os_frame df)
          \/ (p = report_path d "hostname_summary_" (now E) /\ f = hostname_frame df)
          \/ (p = report_path d "vuln_" (now E) /\ f = vuln_frame df)).
Proof.
  unfold loaded_files, report_file. rewrite !in_app_iff.
  split.
  - intros [H|[H|H]];
      match type of H with In _ (if ?b then _ else _) => destruct b eqn:W end;
      cbn [In] in H; try contradiction;
      destruct H as [H|[]]; injection H as <- <-; auto 6.
  - intros [W [[-> ->]|[[-> ->]|[-> ->]]]]; rewrite W; cbn [In]; auto.
Qed.

(** C6, where the code fails it.  ["count"] as the header of a
    summarized column makes [value_counts().reset_index()] raise
    [ValueError] before the [try] of the summary function, for an empty
    column as for any other.  With the five columns [id, ip, hostname,
    rack, count] the warning is printed, the operating-system summary
    raises, the handler of [process_csv_file] prints the error and
    returns [False]: the hostname summary is not attempted, the missing
    vulnerability column gets no header-only report, nothing is written
    and the script exits with status 1. *)
Theorem count_header_stops_the_short_table :
  (forall (E : env) (d ts : pystr) (w : world),
      process_os_summary E (mk_Series (Some (py "count")) []) d ts w =
      (Raise (py "cannot insert count, already exists"), w)
      /\ process_hostname_summary E (mk_Series (Some (py "count")) []) d ts w =
         (Raise (py "cannot insert count, already exists"), w)
      /\ process_vulnerability_summary E (mk_Series (Some (py "count")) []) d ts w =
         (Raise (py "cannot insert count, already exists"), w))
  /\ run os_headed_count_env sample_argv empty_world =
     (1%Z,
      mk_world
        [py "Reading CSV file: servers.csv";
         py "Warning: CSV file has only 5 columns. Expected at least 8 columns.";
         py "Proceeding with available columns...";
         py "Processing Operating Systems summary...";
         py "Error processing CSV file: cannot insert count, already exists";
         [10; 10060]%N ++ py " Script failed to complete."]
        [py "out"]
        []).
Proof.
  split; [|reflexivity].
  intros E d ts w. repeat split.
Qed.

(** X16. A summary of an empty column is the header with no rows, for
    each of the three reports; a column index beyond the width of the
    table selects the empty, unnamed Series.  With fewer than 8 columns,
    none of the summarized ones headed ["count"], [process_csv_file]
    prints the warning and goes on to return [True]: the vulnerability
    report is header-only and is written like any other, and the
    operating-system and hostname reports summarize their column when
    the table has it and are header-only when it does not. *)
Theorem empty_column_gives_header_only :
  os_counts [] = mk_frame (py "Operating System", py "Count") []
  /\ hostname_counts [] = mk_frame (py "Hostname", py "Count") []
  /\ vuln_counts [] = mk_frame (py "Vulnerability", py "Count") []
  /\ (forall (df : list Series) (i : nat),
        List.length df <= i -> column_or_empty df i = mk_Series None [])
  /\ (forall (E : env) (input : pystr) (outdir : option pystr) (w : world)
        (table : list file_column),
        path_exists E input = true ->
        mkdir_error E (output_directory_for input outdir) = None ->
        file_table E input = inr table ->
        List.length table < 8 ->
        no_column_headed_count table ->
        let d := output_directory_for input outdir in
        let df := List.map column_values table in
        let p_vuln := report_path d "vuln_" (now E) in
        exists w' : world,
          process_csv_file E input outdir w = (Done true, w')
          /\ In (py "Warning: CSV file has only " ++ str_of_nat (List.length table)
                   ++ py " columns. Expected at least 8 columns.") (console w')
          /\ In (py "Proceeding with available columns...") (console w')
          /\ files w' = write_files (loaded_files E d df) (files w)
          /\ vuln_frame df = mk_frame (py "Vulnerability", py "Count") []
          /\ (to_csv_error E p_vuln = None ->
                read_file p_vuln (files w') =
                Some (mk_frame (py "Vulnerability", py "Count") []))
          /\ (4 < List.length table ->
                os_frame df =
                os_counts (List.map read_cell (cells (nth 4 table (mk_column [] [])))))
          /\ (List.length table <= 4 ->
                os_frame df = mk_frame (py "Operating System", py "Count") [])
          /\ (2 < List.length table ->
                hostname_frame df =
                hostname_counts (List.map read_cell (cells (nth 2 table (mk_column [] [])))))
          /\ (List.length table <= 2 ->
                hostname_frame df = mk_frame (py "Hostname", py "Count") [])).
Proof.
  split; [reflexivity|]. split; [reflexivity|]. split; [reflexivity|].
  split; [apply column_or_empty_missing|].
  intros E input outdir w table Hex Hmk Htab Hlen Hn d df p_vuln.
  assert (Hdf : List.length df = List.length table) by apply length_map.
  assert (Hv : vuln_frame df = mk_frame (py "Vulnerability", py "Count") []).
  { unfold vuln_frame. rewrite column_or_empty_missing by lia. reflexivity. }
  apply no_count_header_iff in Hn.
  eexists. split.
  { rewrite (process_csv_file_loaded E input outdir w table Hex Hmk Htab).
    apply (loaded_run_no_clash E input _ _ w Hn). }
  cbn [console files]. fold d df.
  assert (Hw : column_warning df =
    [py "Warning: CSV file has only " ++ str_of_nat (List.length table)
       ++ py " columns. Expected at least 8 columns.";
     py "Proceeding with available columns..."]).
  { unfold column_warning. rewrite Hdf.
    apply Nat.ltb_lt in Hlen. now rewrite Hlen. }
  split; [|split; [|split; [reflexivity|split; [exact Hv|split; [|repeat split]]]]].
  - apply in_or_app. right. unfold loaded_console. rewrite Hw.
    right. left. reflexivity.
  - apply in_or_app. right. unfold loaded_console. rewrite Hw.
    right. right. left. reflexivity.
  - intros Hok. apply read_file_write_files_last; [apply loaded_files_NoDup|].
    apply loaded_files_In. unfold writes. fold p_vuln. rewrite Hok.
    split; [reflexivity|]. right. right. now rewrite Hv.
  - intros H. unfold os_frame, df. now rewrite column_or_empty_present.
  - intros H. unfold os_frame. rewrite column_or_empty_missing by lia. reflexivity.
  - intros H. unfold hostname_frame, df. now rewrite column_or_empty_present.
  - intros H. unfold hostname_frame. rewrite column_or_empty_missing by lia. reflexivity.
Qed.

Lemma five_columns_not_headed_count : no_column_headed_count five_columns.
Proof.
  intros i Hi L. cbn [In] in Hi.
  destruct Hi as [<-|[<-|[<-|[]]]]; cbn; discriminate.
Defined.

Lemma empty_column_gives_header_only_witness :
  exists w' : world,
    process_csv_file os_write_fails_env (py "servers.csv") (Some (py "out")) empty_world
    = (Done true, w')
    /\ read_file (py "out/vuln_20250101_120000.csv") (files w') =
       Some (mk_frame (py "Vulnerability", py "Count") []).
Proof.
  destruct empty_column_gives_header_only as (_ & _ & _ & _ & H).
  destruct (H os_write_fails_env (py "servers.csv") (Some (py "out")) empty_world
              five_columns eq_refl eq_refl eq_refl (le_S _ _ (le_S _ _ (le_n 6)))
              five_columns_not_headed_count)
    as (w' & Hrun & _ & _ & _ & _ & Hfile & _).
  exists w'. split; [exact Hrun|]. exact (Hfile eq_refl).
Defined.

(** C8. When the input path does not exist the run stops there:
    [process_csv_file] reports the error and returns [False] without
    making a directory or writing a file, and the script exits with
    status 1. *)
Theorem missing_input_aborts_run :
  forall (E : env) (argv : list pystr) (w : world),
    path_exists E (input_file_of argv) = false ->
    fst (run E argv w) = 1%Z
    /\ dirs (snd (run E argv w)) = dirs w
    /\ files (snd (run E argv w)) = files w
    /\ console (snd (run E argv w)) =
       console w ++ usage_notice argv
         ++ [py "Error: Input file '" ++ input_file_of argv ++ py "' not found.";
             [10; 10060]%N ++ py " Script failed to complete."]
    /\ (forall outdir : option pystr,
          process_csv_file E (input_file_of argv) outdir w =
          (Done false,
           mk_world
             (console w ++ [py "Error: Input file '" ++ input_file_of argv
                              ++ py "' not found."])
             (dirs w) (files w))).
Proof.
  intros E argv w H. rewrite (run_missing E argv w H). cbn [fst snd console dirs files].
  repeat split. intros outdir. now apply process_csv_file_missing.
Qed.

Lemma missing_input_aborts_run_witness :
  fst (run missing_input_env sample_argv empty_world) = 1%Z
  /\ dirs (snd (run missing_input_env sample_argv empty_world)) = []
  /\ files (snd (run missing_input_env sample_argv empty_world)) = [].
Proof.
  destruct (missing_input_aborts_run missing_input_env sample_argv empty_world eq_refl)
    as (H1 & H2 & H3 & _).
  exact (conj H1 (conj H2 H3)).
Defined.




(** * Further properties of a run *)

Lemma process_csv_file_load_error (E : env) (input : pystr) (outdir : option pystr)
    (w : world) (e : pystr) :
  path_exists E input = true ->
  mkdir_error E (output_directory_for input outdir) = None ->
  file_table E input = inl e ->
  process_csv_file E input outdir w =
  (Done false,
   mk_world
     (console w ++ [py "Reading CSV file: " ++ input;
                    py "Error processing CSV file: " ++ e])
     (dirs w ++ made_dirs (output_directory_for input outdir))
     (files w)).
Proof.
  intros Hex Hmk Htab. unfold process_csv_file. rewrite Hex. cbn [negb].
  fold (output_directory_for input outdir).
  unfold bind at 1. unfold path_mkdir. rewrite Hmk.
  unfold try_except, pd_read_csv. rewrite Htab.
  unfold bind, print, ret, raise. cbn [console dirs files].
  rewrite <- app_assoc. reflexivity.
Qed.

Lemma process_csv_file_mkdir_error (E : env) (input : pystr) (outdir : option pystr)
    (w : world) (e : pystr) :
  path_exists E input = true ->
  mkdir_error E (output_directory_for input outdir) = Some e ->
  process_csv_file E input outdir w = (Raise e, w).
Proof.
  intros Hex Hmk. unfold process_csv_file. rewrite Hex. cbn [negb].
  fold (output_directory_for input outdir).
  unfold bind at 1. unfold path_mkdir. rewrite Hmk. reflexivity.
Qed.

Lemma run_load_error (E : env) (argv : list pystr) (w : world) (e : pystr) :
  path_exists E (input_file_of argv) = true ->
  mkdir_error E (output_directory_of argv) = None ->
  file_table E (input_file_of argv) = inl e ->
  run E argv w =
  (1%Z,
   mk_world
     (console w ++ usage_notice argv
        ++ [py "Reading CSV file: " ++ input_file_of argv;
            py "Error processing CSV file: " ++ e;
            [10; 10060]%N ++ py " Script failed to complete."])
     (dirs w ++ made_dirs (output_directory_of argv))
     (files w)).
Proof.
  intros Hex Hmk Htab. unfold run. rewrite main_run.
  rewrite (process_csv_file_load_error E _ _ _ e Hex Hmk Htab).
  cbn [console dirs files].
  repeat progress (rewrite <- ?app_assoc; cbn [app]). reflexivity.
Qed.

Lemma run_mkdir_error (E : env) (argv : list pystr) (w : world) (e : pystr) :
  path_exists E (input_file_of argv) = true ->
  mkdir_error E (output_directory_of argv) = Some e ->
  run E argv w =
  (1%Z, mk_world (console w ++ usage_notice argv) (dirs w) (files w)).
Proof.
  intros Hex Hmk. unfold run. rewrite main_run.
  now rewrite (process_csv_file_mkdir_error E _ _ _ e Hex Hmk).
Qed.

(** X1. When the input exists but [pd.read_csv] raises, the exception is
    caught: its text is printed after "Error processing CSV file: ", no
    summary is attempted and no file is written, and the script exits
    with status 1.  The output directory has been made by then, with its
    ancestors. *)
Theorem load_error_aborts_after_mkdir :
  forall (E : env) (argv : list pystr) (w : world) (e : pystr),
    path_exists E (input_file_of argv) = true ->
    mkdir_error E (output_directory_of argv) = None ->
    file_table E (input_file_of argv) = inl e ->
    run E argv w =
    (1%Z,
     mk_world
       (console w ++ usage_notice argv
          ++ [py "Reading CSV file: " ++ input_file_of argv;
              py "Error processing CSV file: " ++ e;
              [10; 10060]%N ++ py " Script failed to complete."])
       (dirs w ++ made_dirs (output_directory_of argv))
       (files w))
    /\ fst (process_csv_file E (input_file_of argv) (output_argument argv) w) = Done false.
Proof.
  intros E argv w e Hex Hmk Htab. split.
  - now apply run_load_error.
  - now rewrite (process_csv_file_load_error E _ _ w e Hex Hmk Htab).
Qed.

Lemma load_error_aborts_after_mkdir_witness :
  run load_error_env sample_argv empty_world =
  (1%Z,
   mk_world
     [py "Reading CSV file: servers.csv";
      py "Error processing CSV file: No columns to parse from file";
      [10; 10060]%N ++ py " Script failed to complete."]
     [py "out"] []).
Proof.
  exact (proj1 (load_error_aborts_after_mkdir load_error_env sample_argv empty_world
                  (py "No columns to parse from file") eq_refl eq_refl eq_refl)).
Defined.

(** X2. An exception of [mkdir] is not caught: the call at line 44 is
    outside the [try].  [process_csv_file] raises it without printing
    anything, [main] prints neither the failure nor the success line,
    nothing is written, and the interpreter ends with status 1. *)
Theorem mkdir_failure_is_not_caught :
  forall (E : env) (argv : list pystr) (w : world) (e : pystr),
    path_exists E (input_file_of argv) = true ->
    mkdir_error E (output_directory_of argv) = Some e ->
    process_csv_file E (input_file_of argv) (output_argument argv) w = (Raise e, w)
    /\ (exists w', main E argv w = (Raise e, w'))
    /\ run E argv w =
       (1%Z, mk_world (console w ++ usage_notice argv) (dirs w) (files w)).
Proof.
  intros E argv w e Hex Hmk. split; [|split].
  - now apply process_csv_file_mkdir_error.
  - rewrite main_run.
    rewrite (process_csv_file_mkdir_error E _ _ _ e Hex Hmk). eauto.
  - now apply (run_mkdir_error E argv w e).
Qed.

Lemma mkdir_failure_is_not_caught_witness :
  run mkdir_fails_env sample_argv empty_world = (1%Z, empty_world).
Proof.
  exact (proj2 (proj2 (mkdir_failure_is_not_caught mkdir_fails_env sample_argv empty_world
                  (py "[Errno 13] Permission denied: 'out'") eq_refl eq_refl))).
Defined.

(** X14. Without an output directory on the command line the reports go
    next to the input file: to ["."] for an input path without ['/'],
    and to [d] for the input [d/f] (where [d] is not empty and does not
    end with ['/'], and [f] holds no ['/']). *)
Theorem default_output_directory_is_input_directory :
  (forall input : pystr,
     no_sep input = true -> output_directory_for input None = py ".")
  /\ (forall d f : pystr,
        no_sep f = true -> d <> [] -> OsPath.startswith_sep (rev d) = false ->
        output_directory_for (OsPath.join d f) None = d)
  /\ (forall input d : pystr, output_directory_for input (Some d) = d).
Proof.
  split; [|split; [|reflexivity]].
  - intros input H. unfold output_directory_for, OsPath.dirname.
    assert (R : no_sep (rev input) = true) by (unfold no_sep; now rewrite forallb_rev_eq).
    rewrite <- (app_nil_r (rev input)), from_sep_no_sep_app by exact R. reflexivity.
  - intros d f Hf Hd Hs. unfold output_directory_for.
    rewrite dirname_join by exact Hf.
    assert (F : forallb OsPath.is_sep d = false).
    { rewrite <- forallb_rev_eq. destruct (rev d) as [|c r] eqn:Er.
      - apply (f_equal (@rev N)) in Er. rewrite rev_involutive in Er. contradiction.
      - cbn [OsPath.startswith_sep] in Hs. cbn [forallb]. now rewrite Hs. }
    rewrite F.
    assert (S : rstrip_sep d = d).
    { unfold rstrip_sep. destruct (rev d) as [|c r] eqn:Er.
      - apply (f_equal (@rev N)) in Er. rewrite rev_involutive in Er. contradiction.
      - cbn [OsPath.startswith_sep] in Hs. cbn [OsPath.lstrip_sep]. rewrite Hs.
        now rewrite <- Er, rev_involutive. }
    rewrite S. destruct d; [contradiction|reflexivity].
Qed.

Lemma default_output_directory_is_input_directory_witness :
  output_directory_for (py "data/in/servers.csv") None = py "data/in".
Proof.
  exact (proj1 (proj2 default_output_directory_is_input_directory)
           (py "data/in") (py "servers.csv") eq_refl ltac:(discriminate) eq_refl).
Defined.

(** ** A run over a loaded file, whatever the headers *)

Lemma loaded_run_status (E : env) (input d : pystr) (df : list Series) (w : world) :
  fst (loaded_run E input d df w) = Done (no_count_header df).
Proof.
  destruct (no_count_header df) eqn:N.
  - now rewrite loaded_run_no_clash.
  - now apply loaded_run_clash.
Qed.

Lemma write_files_after_report (E : env) (p : pystr) (f : frame)
    (saved found error : string) (w : world) :
  files (after_report E p f saved found error w) =
  write_files (report_file E p f) (files w).
Proof. symmetry. apply write_files_report. Qed.

(** The world a run over a loaded file leaves. *)
Lemma loaded_run_world (E : env) (input d : pystr) (df : list Series) (w : world) :
  snd (loaded_run E input d df w) =
  mk_world
    (console w ++ [py "Reading CSV file: " ++ input] ++ column_warning df
       ++ summary_lines E d df)
    (dirs w ++ made_dirs d)
    (write_files (attempted_files E d df) (files w)).
Proof.
  unfold loaded_run, summary_lines, attempted_files.
  destruct (named_count (column_or_empty df 4)).
  { unfold aborted. cbn [snd console dirs files]. f_equal.
    rewrite <- !app_assoc. reflexivity. }
  destruct (named_count (column_or_empty df 2)).
  { unfold aborted, announce. cbn [snd console dirs files].
    rewrite write_files_after_report, app_nil_r. unfold after_report.
    cbn [console dirs files]. f_equal.
    repeat progress (rewrite <- ?app_assoc; cbn [app]). reflexivity. }
  destruct (named_count (column_or_empty df 7)).
  { unfold aborted, announce. cbn [snd console dirs files].
    rewrite !write_files_after_report, app_nil_r, write_files_app.
    unfold after_report. cbn [console dirs files]. f_equal.
    repeat progress (rewrite <- ?app_assoc; cbn [app]). reflexivity. }
  unfold announce. cbn [snd console dirs files].
  rewrite !write_files_after_report, !write_files_app.
  unfold after_report. cbn [console dirs files]. f_equal.
  repeat progress (rewrite <- ?app_assoc; cbn [app]). reflexivity.
Qed.


Lemma plain_line (prefix : string) (rest : pystr) (c : N) (r : pystr) :
  py prefix = c :: r -> c <> 80%N -> c <> 87%N -> not_a_warning (py prefix ++ rest).
Proof.
  intros Hp H80 H87. rewrite Hp. split.
  - intros H. cbn in H. injection H as H _. contradiction.
  - intros n H. cbn in H. injection H as H _. contradiction.
Qed.

Lemma plain_processing (what : string) :
  not_a_warning (py "Processing " ++ py what).
Proof.
  split.
  - intros H. cbn in H. discriminate H.
  - intros n H. cbn in H. discriminate H.
Qed.

Lemma report_console_plain (E : env) (p : pystr) (f : frame)
    (saved found error : string) :
  (exists r, py saved = 32%N :: r) -> (exists r, py error = 32%N :: r) ->
  Forall not_a_warning (report_console E p f saved found error).
Proof.
  intros [r1 H1] [r2 H2]. unfold report_console.
  destruct (to_csv_error E p) as [e|].
  - constructor; [|constructor].
    apply (plain_line error e 32%N r2 H2); discriminate.
  - constructor; [|constructor; [|constructor]].
    + apply (plain_line saved p 32%N r1 H1); discriminate.
    + apply (plain_line "  - Found " _ 32%N (py " - Found ") eq_refl); discriminate.
Qed.

Lemma success_line_plain (E : env) (title : string) (p : pystr) :
  (exists r, py title = 45%N :: r) -> Forall not_a_warning (success_line E title p).
Proof.
  intros [r H]. unfold success_line. destruct (writes E p); constructor; [|constructor].
  apply (plain_line title p 45%N r H); discriminate.
Qed.

Lemma error_line_plain : not_a_warning error_line.
Proof.
  apply (plain_line "Error processing CSV file: " clash_message 69%N
           (py "rror processing CSV file: ") eq_refl); discriminate.
Qed.

Lemma summary_lines_plain (E : env) (d : pystr) (df : list Series) :
  Forall not_a_warning (summary_lines E d df).
Proof.
  unfold summary_lines.
  constructor; [apply (plain_processing "Operating Systems summary...")|].
  destruct (named_count (column_or_empty df 4));
    [constructor; [apply error_line_plain|constructor]|].
  apply Forall_app. split; [apply report_console_plain; eexists; reflexivity|].
  constructor; [apply (plain_processing "Hostnames summary...")|].
  destruct (named_count (column_or_empty df 2));
    [constructor; [apply error_line_plain|constructor]|].
  apply Forall_app. split; [apply report_console_plain; eexists; reflexivity|].
  constructor; [apply (plain_processing "Vulnerabilities summary...")|].
  destruct (named_count (column_or_empty df 7));
    [constructor; [apply error_line_plain|constructor]|].
  apply Forall_app. split; [apply report_console_plain; eexists; reflexivity|].
  apply Forall_app. split.
  { constructor; [|constructor]. split.
    - intros H. cbn in H. discriminate H.
    - intros n H. cbn in H. discriminate H. }
  apply Forall_app. split; [apply success_line_plain; eexists; reflexivity|].
  apply Forall_app. split; apply success_line_plain; eexists; reflexivity.
Qed.

Lemma not_a_warning_absent (line : pystr) (ls : list pystr) :
  Forall not_a_warning ls -> ~ not_a_warning line -> ~ In line ls.
Proof.
  intros F N H. rewrite Forall_forall in F. exact (N (F _ H)).
Qed.

(** The lines of the run: the two warning lines are among them exactly
    for a table of fewer than 8 columns. *)
Lemma loaded_run_console (E : env) (input d : pystr) (df : list Series) (w : world) :
  exists out : list pystr,
    console (snd (loaded_run E input d df w)) = console w ++ out
    /\ (In (py "Proceeding with available columns...") out <-> List.length df < 8)
    /\ (In (py "Warning: CSV file has only " ++ str_of_nat (List.length df)
              ++ py " columns. Expected at least 8 columns.") out
        <-> List.length df < 8).
Proof.
  rewrite loaded_run_world. cbn [console]. eexists. split; [reflexivity|].
  pose proof (summary_lines_plain E d df) as P.
  assert (N1 : ~ In (py "Proceeding with available columns...") (summary_lines E d df)).
  { apply (not_a_warning_absent _ _ P). intros [H _]. now apply H. }
  assert (N2 : ~ In (py "Warning: CSV file has only " ++ str_of_nat (List.length df)
                       ++ py " columns. Expected at least 8 columns.")
                 (summary_lines E d df)).
  { apply (not_a_warning_absent _ _ P). intros [_ H]. now apply (H (List.length df)). }
  rewrite <- !Nat.ltb_lt. unfold column_warning.
  destruct (List.length df <? 8); cbn [app In]; split; split; intros H;
    try reflexivity; try discriminate H; auto;
    exfalso;
    repeat match goal with
           | K : _ \/ _ |- _ => destruct K as [K|K]
           | K : False |- _ => destruct K
           | K : In _ (_ ++ _) |- _ => apply in_app_or in K
           | K : In _ (_ :: _) |- _ => cbn [In] in K
           | K : In _ [] |- _ => destruct K
           | K : _ = _ |- _ => solve [cbn in K; discriminate K]
           end; contradiction.
Qed.



Lemma run_loaded_any (E : env) (argv : list pystr) (w : world) (table : list file_column) :
  path_exists E (input_file_of argv) = true ->
  mkdir_error E (output_directory_of argv) = None ->
  file_table E (input_file_of argv) = inr table ->
  exists wl : world,
    wl = snd (loaded_run E (input_file_of argv) (output_directory_of argv)
                (List.map column_values table)
                (mk_world (console w ++ usage_notice argv) (dirs w) (files w)))
    /\ run E argv w =
       (if no_count_header (List.map column_values table) then 0%Z else 1%Z,
        mk_world
          (console wl ++
             [if no_count_header (List.map column_values table)
              then [10; 9989]%N ++ py " Script completed successfully!"
              else [10; 10060]%N ++ py " Script failed to complete."])
          (dirs wl) (files wl)).
Proof.
  intros Hex Hmk Htab. unfold run. rewrite main_run.
  rewrite (process_csv_file_loaded E _ _ _ table Hex Hmk Htab).
  fold (output_directory_of argv).
  pose proof (loaded_run_status E (input_file_of argv) (output_directory_of argv)
                (List.map column_values table)
                (mk_world (console w ++ usage_notice argv) (dirs w) (files w))) as F.
  destruct (loaded_run _ _ _ _ _) as [o wl]. cbn [fst snd] in *. subst o.
  exists wl. split; [reflexivity|].
  now destruct (no_count_header (List.map column_values table)).
Qed.

(** X3. The exit status is 0 or 1.  It is 0 exactly when the input
    exists, the output directory could be made, the file could be loaded
    and none of the columns to summarize (indices 2, 4 and 7, where the
    table has them) is headed ["count"]: whether the reports could be
    written plays no part. *)
Theorem exit_status_characterized :
  forall (E : env) (argv : list pystr) (w : world),
    (fst (run E argv w) = 0%Z \/ fst (run E argv w) = 1%Z)
    /\ (fst (run E argv w) = 0%Z
        <-> path_exists E (input_file_of argv) = true
            /\ mkdir_error E (output_directory_of argv) = None
            /\ exists table,
                 file_table E (input_file_of argv) = inr table
                 /\ forall i, In i [2; 4; 7] -> i < List.length table ->
                      header (nth i table (mk_column [] [])) <> py "count").
Proof.
  intros E argv w.
  destruct (path_exists E (input_file_of argv)) eqn:Hex.
  - destruct (mkdir_error E (output_directory_of argv)) as [e|] eqn:Hmk.
    + rewrite (run_mkdir_error E argv w e Hex Hmk). cbn [fst].
      split; [now right|]. split; [discriminate|]. intros (_ & H & _). discriminate.
    + destruct (file_table E (input_file_of argv)) as [e|table] eqn:Htab.
      * rewrite (run_load_error E argv w e Hex Hmk Htab). cbn [fst].
        split; [now right|]. split; [discriminate|].
        intros (_ & _ & t & H & _). discriminate.
      * destruct (run_loaded_any E argv w table Hex Hmk Htab) as (wl & _ & R).
        rewrite R. cbn [fst].
        pose proof (no_count_header_iff table) as I.
        unfold no_column_headed_count in I.
        destruct (no_count_header (List.map column_values table)).
        -- split; [now left|]. split; [|reflexivity]. intros _.
           repeat split. exists table. split; [reflexivity|]. now apply I.
        -- split; [now right|]. split; [discriminate|].
           intros (_ & _ & t & Ht & Hn). injection Ht as <-.
           apply I in Hn. discriminate.
  - rewrite (run_missing E argv w Hex). cbn [fst].
    split; [now right|]. split; [discriminate|]. intros (H & _). discriminate.
Qed.


(** X12. Once the file is loaded, the column-count warning is printed
    exactly when the table has fewer than 8 columns; a table with 8 or
    more columns is processed without it. *)
Theorem column_warning_iff_fewer_than_8 :
  forall (E : env) (input : pystr) (outdir : option pystr) (w : world)
         (table : list file_column),
    path_exists E input = true ->
    mkdir_error E (output_directory_for input outdir) = None ->
    file_table E input = inr table ->
    exists out : list pystr,
      console (snd (process_csv_file E input outdir w)) = console w ++ out
      /\ (In (py "Proceeding with available columns...") out
          <-> List.length table < 8)
      /\ (In (py "Warning: CSV file has only " ++ str_of_nat (List.length table)
                ++ py " columns. Expected at least 8 columns.") out
          <-> List.length table < 8).
Proof.
  intros E input outdir w table Hex Hmk Htab.
  rewrite (process_csv_file_loaded E input outdir w table Hex Hmk Htab).
  rewrite <- (length_map column_values table).
  apply loaded_run_console.
Qed.

Lemma column_warning_iff_fewer_than_8_witness :
  exists out : list pystr,
    console (snd (process_csv_file os_write_fails_env (py "servers.csv")
                    (Some (py "out")) empty_world)) = [] ++ out
    /\ In (py "Proceeding with available columns...") out.
Proof.
  destruct (column_warning_iff_fewer_than_8 os_write_fails_env (py "servers.csv")
              (Some (py "out")) empty_world five_columns eq_refl eq_refl eq_refl)
    as (out & Hc & Hp & _).
  exists out. split; [exact Hc|].
  apply (proj2 Hp). exact (le_S _ _ (le_S _ _ (le_n 6))).
Defined.

